(** * Options analysis engine: payoff evaluator, strategy analyzer,
      Black-Scholes kernel and implied-volatility solver.

    Shallow embedding of [src/analysis/strategies.js] and
    [src/analysis/greeks.js].  JavaScript numbers are IEEE-754 binary64
    values; they are embedded as Rocq's primitive [float], whose
    operations are the same round-to-nearest-even binary64 operations, so
    every definition below evaluates to the very value the program
    computes. *)

From Stdlib Require Import ZArith Bool List String Lia.
From Stdlib Require Import Floats.
Import ListNotations.

Set Warnings "-inexact-float".

Local Open Scope float_scope.

(** ** JavaScript values used by the engine *)

Module JS.

(** Abrupt and normal completion of a call.  The engine contains no
    [throw]; the type is what lets a statement say so. *)
Inductive JSError : Type :=
| RangeError (message : string)
| TypeError (message : string)
| Error (message : string).

Inductive completion (A : Type) : Type :=
| Normal (value : A)
| Throw (exn : JSError).

Arguments Normal {A} value.
Arguments Throw {A} exn.

Definition bind {A B : Type} (c : completion A) (k : A -> completion B)
  : completion B :=
  match c with
  | Normal v => k v
  | Throw e => Throw e
  end.

Definition raises {A : Type} (c : completion A) : Prop :=
  exists e, c = Throw e.

Definition returns {A : Type} (c : completion A) : Prop :=
  exists v, c = Normal v.

(** [a === b] on numbers: NaN differs from itself, [+0 === -0]. *)
Definition strict_eq (a b : float) : bool := PrimFloat.eqb a b.

(** [a > b] and [a >= b]. *)
Definition gt (a b : float) : bool := PrimFloat.ltb b a.
Definition ge (a b : float) : bool := PrimFloat.leb b a.

(** The Number value of a non-negative integer (loop indices, lengths). *)
Definition of_Z (n : Z) : float :=
  match n with
  | Z0 => 0
  | Zpos _ => PrimFloat.of_uint63 (Uint63.of_Z n)
  | Zneg _ => - PrimFloat.of_uint63 (Uint63.of_Z (Z.opp n))
  end.

Definition of_nat (n : nat) : float := of_Z (Z.of_nat n).

Definition Math_abs (x : float) : float := PrimFloat.abs x.

Definition Math_sqrt (x : float) : float := PrimFloat.sqrt x.

Definition Math_PI : float := 3.141592653589793.

(** [Math.max(a, b)]: NaN if either argument is NaN, and [+0] counts as
    larger than [-0]. *)
Definition Math_max (a b : float) : float :=
  if PrimFloat.is_nan a || PrimFloat.is_nan b then nan
  else if PrimFloat.ltb a b then b
  else if PrimFloat.ltb b a then a
  else if PrimFloat.get_sign a then b else a.

(** [Math.round(x)]: the integer nearest to [x], ties towards
    +Infinity; NaN, the infinities and integers are returned
    unchanged, and a negative [x] that rounds to zero gives [-0]. *)
Definition Math_round (x : float) : float :=
  match Prim2SF x with
  | S754_finite s m e =>
      if (0 <=? e)%Z then x
      else
        let d := Z.pow 2 (Z.opp e) in
        let q := Z.div (Zpos m) d in
        let r := Z.modulo (Zpos m) d in
        if s then
          - of_Z (if (d <? 2 * r)%Z then q + 1 else q)%Z
        else
          of_Z (if (d <=? 2 * r)%Z then q + 1 else q)%Z
  | _ => x
  end.

(** A [Date] is represented by its time value: milliseconds since the
    epoch, NaN for an invalid date.  [d1 - d2] on dates subtracts the
    time values. *)
Definition Date : Type := float.

End JS.

Import JS.

Notation "x <- c ;; k" := (JS.bind c (fun x => k))
  (at level 61, c at next level, right associativity).

(** ** strategies.js *)

(** A leg of a strategy.  A property that the object literal leaves out
    ([strike], [expiry] and [optionType] of a stock leg) is [undefined] in
    the program; every use of such a property in arithmetic converts it
    to NaN, which is how it is stored here. *)
Record Position : Type := mkPosition {
  type : string;
  optionType : string;
  strike : float;
  premium : float;
  quantity : float;
  expiry : Date
}.

Definition undefined_number : float := nan.
Definition undefined_string : string := "undefined".

Record PricePoint : Type := mkPricePoint {
  price : float;
  pl : float
}.

(** Calculate P&L for a position at a given stock price. *)
Definition calculatePositionPL (position : Position) (stockPrice : float)
    (currentDate : Date) : float :=
  if String.eqb (type position) "stock" then
    (stockPrice - premium position) * quantity position
  else
    let expiryDate := expiry position in
    let timeToExpiry :=
      Math_max 0 ((expiryDate - currentDate) / (365 * 24 * 60 * 60 * 1000)) in
    if timeToExpiry <=? 0 then
      let intrinsicValue :=
        if String.eqb (optionType position) "call"
        then Math_max 0 (stockPrice - strike position)
        else Math_max 0 (strike position - stockPrice) in
      (intrinsicValue - premium position) * quantity position * 100
    else
      let intrinsicValue :=
        if String.eqb (optionType position) "call"
        then Math_max 0 (stockPrice - strike position)
        else Math_max 0 (strike position - stockPrice) in
      (intrinsicValue - premium position) * quantity position * 100.

(** Calculate total P&L for a strategy across a range of prices. *)
Definition calculateStrategyPL (positions : list Position)
    (priceRange : list float) (currentDate : Date)
    : completion (list PricePoint) :=
  Normal
    (map (fun price =>
            let totalPL :=
              fold_left
                (fun sum position =>
                   sum + calculatePositionPL position price currentDate)
                positions 0 in
            mkPricePoint price (Math_round (totalPL * 100) / 100))
         priceRange).

(** Generate price range for analysis.  [steps] is the step count, a
    non-negative integer; the array has [steps + 1] entries, built from
    the indices [0 .. steps]. *)
Definition generatePriceRange (centerPrice percentRange : float)
    (steps : nat) : completion (list float) :=
  let minPrice := centerPrice * (1 - percentRange) in
  let maxPrice := centerPrice * (1 + percentRange) in
  let stepSize := (maxPrice - minPrice) / of_nat steps in
  Normal
    (map (fun i => Math_round ((minPrice + of_nat i * stepSize) * 100) / 100)
         (seq 0 (steps + 1))).

Definition default_percentRange : float := 0.2.
Definition default_steps : nat := 50.

(** Pre-built strategy constructors. *)
Module strategies.

Definition optionLeg (optionType : string)
    (strike premium quantity : float) (expiry : Date) : Position :=
  mkPosition "option" optionType strike premium quantity expiry.

Definition stockLeg (premium quantity : float) : Position :=
  mkPosition "stock" undefined_string undefined_number premium quantity
    undefined_number.

Definition longCall (strike premium : float) (expiry : Date) :=
  [ optionLeg "call" strike premium 1 expiry ].

Definition longPut (strike premium : float) (expiry : Date) :=
  [ optionLeg "put" strike premium 1 expiry ].

Definition coveredCall (stockPrice callStrike callPremium : float)
    (expiry : Date) :=
  [ stockLeg stockPrice 100;
    optionLeg "call" callStrike callPremium (-1) expiry ].

Definition bullCallSpread
    (lowerStrike lowerPremium upperStrike upperPremium : float)
    (expiry : Date) :=
  [ optionLeg "call" lowerStrike lowerPremium 1 expiry;
    optionLeg "call" upperStrike upperPremium (-1) expiry ].

Definition bearPutSpread
    (lowerStrike lowerPremium upperStrike upperPremium : float)
    (expiry : Date) :=
  [ optionLeg "put" upperStrike upperPremium 1 expiry;
    optionLeg "put" lowerStrike lowerPremium (-1) expiry ].

Definition longStraddle (strike callPremium putPremium : float)
    (expiry : Date) :=
  [ optionLeg "call" strike callPremium 1 expiry;
    optionLeg "put" strike putPremium 1 expiry ].

Definition longStrangle
    (putStrike putPremium callStrike callPremium : float) (expiry : Date) :=
  [ optionLeg "put" putStrike putPremium 1 expiry;
    optionLeg "call" callStrike callPremium 1 expiry ].

Definition ironCondor
    (putLower putLowerPrem putUpper putUpperPrem
     callLower callLowerPrem callUpper callUpperPrem : float)
    (expiry : Date) :=
  [ optionLeg "put" putLower putLowerPrem 1 expiry;
    optionLeg "put" putUpper putUpperPrem (-1) expiry;
    optionLeg "call" callLower callLowerPrem (-1) expiry;
    optionLeg "call" callUpper callUpperPrem 1 expiry ].

Definition butterflySpread
    (lowerStrike lowerPrem middleStrike middlePrem upperStrike upperPrem
       : float)
    (expiry : Date) (optionType : string) :=
  [ optionLeg optionType lowerStrike lowerPrem 1 expiry;
    optionLeg optionType middleStrike middlePrem (-2) expiry;
    optionLeg optionType upperStrike upperPrem 1 expiry ].

End strategies.

(** [maxProfit] and [maxLoss] of the result: the string ['Unlimited'] or
    a number. *)
Inductive Extreme : Type :=
| Unlimited
| Num (value : float).

Record StrategyMetrics : Type := mkStrategyMetrics {
  maxProfit : Extreme;
  maxLoss : Extreme;
  breakevenPoints : list float;
  netPremium : float;
  plData : list PricePoint
}.

(** The variables of the scanning loop of [analyzeStrategy]. *)
Record ScanState : Type := mkScanState {
  scan_maxProfit : float;
  scan_maxLoss : float;
  scan_breakevenPoints : list float
}.

(** One pass of the loop body at [plData[i]]; [prev] is [plData[i - 1]]
    when [i > 0]. *)
Definition scanStep (prev : option PricePoint) (cur : PricePoint)
    (st : ScanState) : ScanState :=
  let maxProfit :=
    if gt (pl cur) (scan_maxProfit st) then pl cur else scan_maxProfit st in
  let maxLoss :=
    if pl cur <? scan_maxLoss st then pl cur else scan_maxLoss st in
  let breakevenPoints :=
    match prev with
    | Some p =>
        let prevPL := pl p in
        if ((prevPL <? 0) && ge (pl cur) 0)
           || (gt prevPL 0 && (pl cur <=? 0))
        then scan_breakevenPoints st ++ [price cur]
        else scan_breakevenPoints st
    | None => scan_breakevenPoints st
    end in
  mkScanState maxProfit maxLoss breakevenPoints.

Fixpoint scanLoop (prev : option PricePoint) (rest : list PricePoint)
    (st : ScanState) : ScanState :=
  match rest with
  | [] => st
  | cur :: rest' => scanLoop (Some cur) rest' (scanStep prev cur st)
  end.

Definition scanInit : ScanState :=
  mkScanState neg_infinity infinity [].

Definition round2 (x : float) : float := Math_round (x * 100) / 100.

(** Analyze a strategy and return key metrics.  [expiry] is the time
    value of [new Date(expiry)]. *)
Definition analyzeStrategy (positions : list Position) (spotPrice : float)
    (expiry : Date) : completion StrategyMetrics :=
  priceRange <- generatePriceRange spotPrice 0.3 100 ;;
  plData <- calculateStrategyPL positions priceRange expiry ;;
  let st := scanLoop None plData scanInit in
  let netPremium :=
    fold_left
      (fun sum pos =>
         if String.eqb (type pos) "option"
         then sum + premium pos * quantity pos * 100
         else sum)
      positions 0 in
  Normal
    (mkStrategyMetrics
       (if strict_eq (scan_maxProfit st) infinity
        then Unlimited
        else Num (Math_round (scan_maxProfit st * 100) / 100))
       (if strict_eq (scan_maxLoss st) neg_infinity
        then Unlimited
        else Num (Math_round (scan_maxLoss st * 100) / 100))
       (map (fun p => Math_round (p * 100) / 100) (scan_breakevenPoints st))
       (Math_round (netPremium * 100) / 100)
       plData).

(** ** greeks.js *)

(** [Math.exp] and [Math.log] are host functions whose results ECMAScript
    leaves implementation-approximated.  The kernel is written over any
    host; [V8Math] below is the host the program runs on. *)
Class HostMath : Type := {
  Math_exp : float -> float;
  Math_log : float -> float
}.

Record Greeks : Type := mkGreeks {
  g_price : float;
  g_delta : float;
  g_gamma : float;
  g_theta : float;
  g_vega : float;
  g_rho : float
}.

Record GreeksParams : Type := mkGreeksParams {
  spotPrice : float;
  strikePrice : float;
  timeToExpiry : float;
  riskFreeRate : float;
  volatility : float;
  gp_optionType : string
}.

Definition default_riskFreeRate : float := 0.05.
Definition default_optionType : string := "call".

Section Kernel.

Context {host : HostMath}.

(** Standard normal cumulative distribution function. *)
Definition normalCDF_y (x : float) : float :=
  let a1 := 0.254829592 in
  let a2 := -0.284496736 in
  let a3 := 1.421413741 in
  let a4 := -1.453152027 in
  let a5 := 1.061405429 in
  let p := 0.3275911 in
  let x := Math_abs x / Math_sqrt 2 in
  let t := 1.0 / (1.0 + p * x) in
  1.0 - (((((a5 * t + a4) * t) + a3) * t + a2) * t + a1) * t
        * Math_exp ((- x) * x).

Definition normalCDF (x : float) : float :=
  let sign := if x <? 0 then -1 else 1 in
  let y := normalCDF_y x in
  0.5 * (1.0 + sign * y).

(** Standard normal probability density function. *)
Definition normalPDF (x : float) : float :=
  Math_exp (-0.5 * x * x) / Math_sqrt (2 * Math_PI).

(** Calculate d1 and d2 for Black-Scholes. *)
Definition calculateD1D2 (S K T r sigma : float) : float * float :=
  let d1 :=
    (Math_log (S / K) + (r + 0.5 * sigma * sigma) * T)
    / (sigma * Math_sqrt T) in
  let d2 := d1 - sigma * Math_sqrt T in
  (d1, d2).

(** Calculate all Greeks for an option. *)
Definition calculateGreeks (params : GreeksParams) : completion Greeks :=
  let S := spotPrice params in
  let K := strikePrice params in
  let T := timeToExpiry params in
  let r := riskFreeRate params in
  let sigma := volatility params in
  let optionType := gp_optionType params in
  if T <=? 0 then
    let intrinsicValue :=
      if String.eqb optionType "call"
      then Math_max 0 (S - K)
      else Math_max 0 (K - S) in
    Normal
      (mkGreeks
         intrinsicValue
         (if String.eqb optionType "call"
          then (if gt S K then 1 else 0)
          else (if S <? K then -1 else 0))
         0 0 0 0)
  else
    let '(d1, d2) := calculateD1D2 S K T r sigma in
    let sqrtT := Math_sqrt T in
    let expRT := Math_exp ((- r) * T) in
    let '(price, delta, rho) :=
      if String.eqb optionType "call" then
        (S * normalCDF d1 - K * expRT * normalCDF d2,
         normalCDF d1,
         K * T * expRT * normalCDF d2 / 100)
      else
        (K * expRT * normalCDF (- d2) - S * normalCDF (- d1),
         normalCDF d1 - 1,
         (- K) * T * expRT * normalCDF (- d2) / 100) in
    let gamma := normalPDF d1 / (S * sigma * sqrtT) in
    let thetaAnnual :=
      if String.eqb optionType "call"
      then (- (S * normalPDF d1 * sigma)) / (2 * sqrtT)
           - r * K * expRT * normalCDF d2
      else (- (S * normalPDF d1 * sigma)) / (2 * sqrtT)
           + r * K * expRT * normalCDF (- d2) in
    let theta := thetaAnnual / 365 in
    let vega := S * sqrtT * normalPDF d1 / 100 in
    Normal
      (mkGreeks
         (Math_round (price * 100) / 100)
         (Math_round (delta * 1000) / 1000)
         (Math_round (gamma * 10000) / 10000)
         (Math_round (theta * 100) / 100)
         (Math_round (vega * 100) / 100)
         (Math_round (rho * 100) / 100)).

End Kernel.

(** ** The host's [Math.exp] and [Math.log]

    Node.js evaluates both with V8's [ieee754::exp] and [ieee754::log],
    the fdlibm algorithms, which use binary64 arithmetic and the two
    32-bit words of the argument only; they are transcribed here so that
    calls of the kernel can be evaluated.  No theorem about the kernel
    over an arbitrary host depends on them. *)
Module V8.

Local Open Scope Z_scope.

(** The 64-bit pattern of a double. *)
Definition bits (x : float) : Z :=
  match Prim2SF x with
  | S754_zero s => if s then 2 ^ 63 else 0
  | S754_infinity s => (if s then 2 ^ 63 else 0) + 0x7ff0000000000000
  | S754_nan => 0x7ff8000000000000
  | S754_finite s m e =>
      (if s then 2 ^ 63 else 0)
      + (if Zpos m <? 2 ^ 52 then Zpos m
         else (e + 1075) * 2 ^ 52 + (Zpos m - 2 ^ 52))
  end.

Definition of_bits (b : Z) : float :=
  let s := 2 ^ 63 <=? b in
  let E := Z.land (Z.shiftr b 52) 0x7ff in
  let frac := Z.land b (2 ^ 52 - 1) in
  SF2Prim
    (if E =? 0 then
       match frac with
       | Zpos m => S754_finite s m (-1074)
       | _ => S754_zero s
       end
     else if E =? 0x7ff then
       (if frac =? 0 then S754_infinity s else S754_nan)
     else
       match frac + 2 ^ 52 with
       | Zpos m => S754_finite s m (E - 1075)
       | _ => S754_nan
       end).

(** GET_HIGH_WORD, as an unsigned 32-bit value, and GET_LOW_WORD. *)
Definition high_word (x : float) : Z := Z.shiftr (bits x) 32.
Definition low_word (x : float) : Z := Z.land (bits x) 0xffffffff.

(** INSERT_WORDS. *)
Definition insert_words (hi lo : Z) : float :=
  of_bits (Z.shiftl (Z.land hi 0xffffffff) 32 + Z.land lo 0xffffffff).

(** A high word read as [int32_t]. *)
Definition int32 (w : Z) : Z := if 2 ^ 31 <=? w then w - 2 ^ 32 else w.

(** [static_cast<int>(d)] for a double within the [int] range. *)
Definition to_int (d : float) : Z :=
  match Prim2SF d with
  | S754_finite s m e =>
      let a := if 0 <=? e then Zpos m * 2 ^ e else Zpos m / 2 ^ (- e) in
      if s then - a else a
  | _ => 0
  end.

Local Open Scope float_scope.

Definition exp_tail (hi lo : float) (k : Z) (x : float) : float :=
  let one := 1.0 in
  let twom1000 := 9.33263618503218878990e-302 in
  let two1023 := 8.988465674311579539e307 in
  let P1 := 1.66666666666666019037e-01 in
  let P2 := -2.77777777770155933842e-03 in
  let P3 := 6.61375632143793436117e-05 in
  let P4 := -1.65339022054652515390e-06 in
  let P5 := 4.13813679705723846039e-08 in
  let t := x * x in
  let twopk :=
    if (-1021 <=? k)%Z
    then insert_words (0x3ff00000 + Z.shiftl k 20) 0
    else insert_words (0x3ff00000 + Z.shiftl (k + 1000) 20) 0 in
  let c := x - t * (P1 + t * (P2 + t * (P3 + t * (P4 + t * P5)))) in
  if (k =? 0)%Z then one - ((x * c) / (c - 2.0) - x)
  else
    let y := one - ((lo - (x * c) / (2.0 - c)) - hi) in
    if (-1021 <=? k)%Z then
      if (k =? 1024)%Z then y * 2.0 * two1023 else y * twopk
    else y * twopk * twom1000.

Definition exp (x : float) : float :=
  let one := 1.0 in
  let huge := 1.0e+300 in
  let twom1000 := 9.33263618503218878990e-302 in
  let o_threshold := 7.09782712893383973096e+02 in
  let u_threshold := -7.45133219101941108420e+02 in
  let ln2HI := 6.93147180369123816490e-01 in
  let ln2LO := 1.90821492927058770002e-10 in
  let invln2 := 1.44269504088896338700e+00 in
  let E := 2.718281828459045 in
  let xsb := Z.land (Z.shiftr (high_word x) 31) 1 in
  let hx := Z.land (high_word x) 0x7fffffff in
  if (0x7ff00000 <=? hx)%Z then
    if negb (Z.lor (Z.land hx 0xfffff) (low_word x) =? 0)%Z then x + x
    else if (xsb =? 0)%Z then x else 0.0
  else if (0x40862E42 <=? hx)%Z && (o_threshold <? x) then huge * huge
  else if (0x40862E42 <=? hx)%Z && (x <? u_threshold) then
    twom1000 * twom1000
  else if (0x3fd62e42 <? hx)%Z then
    if (hx <? 0x3FF0A2B2)%Z then
      if x =? 1.0 then E
      else
        let hi := x - (if (xsb =? 0)%Z then ln2HI else - ln2HI) in
        let lo := if (xsb =? 0)%Z then ln2LO else - ln2LO in
        let k := (1 - xsb - xsb)%Z in
        exp_tail hi lo k (hi - lo)
    else
      let k :=
        to_int (invln2 * x + (if (xsb =? 0)%Z then 0.5 else -0.5)) in
      let t := of_Z k in
      let hi := x - t * ln2HI in
      let lo := t * ln2LO in
      exp_tail hi lo k (hi - lo)
  else if (hx <? 0x3e300000)%Z then
    if one <? huge + x then one + x else exp_tail 0.0 0.0 0 x
  else exp_tail 0.0 0.0 0 x.

Definition log (x0 : float) : float :=
  let ln2_hi := 6.93147180369123816490e-01 in
  let ln2_lo := 1.90821492927058770002e-10 in
  let two54 := 1.80143985094819840000e+16 in
  let Lg1 := 6.666666666666735130e-01 in
  let Lg2 := 3.999999999940941908e-01 in
  let Lg3 := 2.857142874366239149e-01 in
  let Lg4 := 2.222219843214978396e-01 in
  let Lg5 := 1.818357216161805012e-01 in
  let Lg6 := 1.531383769920937332e-01 in
  let Lg7 := 1.479819860511658591e-01 in
  let zero := 0.0 in
  let hx0 := int32 (high_word x0) in
  let lx := low_word x0 in
  if (hx0 <? 0x00100000)%Z
     && (Z.lor (Z.land hx0 0x7fffffff) lx =? 0)%Z
  then (- two54) / zero
  else if (hx0 <? 0x00100000)%Z && (hx0 <? 0)%Z then (x0 - x0) / zero
  else
    let subnormal := (hx0 <? 0x00100000)%Z in
    let k0 := if subnormal then (-54)%Z else 0%Z in
    let x1 := if subnormal then x0 * two54 else x0 in
    let hx1 := if subnormal then int32 (high_word x1) else hx0 in
    if (0x7ff00000 <=? hx1)%Z then x1 + x1
    else
      let k1 := (k0 + (Z.shiftr hx1 20 - 1023))%Z in
      let hx := Z.land hx1 0x000fffff in
      let i := Z.land (hx + 0x95f64) 0x100000 in
      let x :=
        insert_words (Z.lor hx (Z.lxor i 0x3ff00000)) (low_word x1) in
      let k := (k1 + Z.shiftr i 20)%Z in
      let f := x - 1.0 in
      if (Z.land 0x000fffff (2 + hx) <? 3)%Z then
        if f =? zero then
          if (k =? 0)%Z then zero
          else let dk := of_Z k in dk * ln2_hi + dk * ln2_lo
        else
          let R := f * f * (0.5 - 0.33333333333333333 * f) in
          if (k =? 0)%Z then f - R
          else let dk := of_Z k in dk * ln2_hi - ((R - dk * ln2_lo) - f)
      else
        let s := f / (2.0 + f) in
        let dk := of_Z k in
        let z := s * s in
        let w := z * z in
        let t1 := w * (Lg2 + w * (Lg4 + w * Lg6)) in
        let t2 := z * (Lg1 + w * (Lg3 + w * (Lg5 + w * Lg7))) in
        let R := t2 + t1 in
        if (0x6147a <=? hx)%Z && (hx <=? 0x6b851)%Z then
          let hfsq := 0.5 * f * f in
          if (k =? 0)%Z then f - (hfsq - s * (hfsq + R))
          else
            dk * ln2_hi - ((hfsq - (s * (hfsq + R) + dk * ln2_lo)) - f)
        else
          if (k =? 0)%Z then f - s * (f - R)
          else dk * ln2_hi - ((s * (f - R) - dk * ln2_lo) - f).

End V8.

#[export] Instance V8Math : HostMath := {|
  Math_exp := V8.exp;
  Math_log := V8.log
|}.

(** ** Implied volatility (greeks.js, continued) *)

Record IVParams : Type := mkIVParams {
  optionPrice : float;
  iv_spotPrice : float;
  iv_strikePrice : float;
  iv_timeToExpiry : float;
  iv_riskFreeRate : float;
  iv_optionType : string;
  maxIterations : nat;
  tolerance : float
}.

Definition default_maxIterations : nat := 100.
Definition default_tolerance : float := 0.0001.

(** How control leaves the [for] loop: through the [return] inside it, or
    by falling out of it ([break], or the bound reached) with the current
    [sigma]. *)
Inductive LoopExit : Type :=
| Returned (value : float)
| Fell (sigma : float).

Section Solver.

Context {host : HostMath}.

Definition greeksAt (p : IVParams) (sigma : float) : completion Greeks :=
  calculateGreeks
    (mkGreeksParams (iv_spotPrice p) (iv_strikePrice p)
       (iv_timeToExpiry p) (iv_riskFreeRate p) sigma (iv_optionType p)).

(** The update of [sigma] and the two guards that follow it. *)
Definition newtonUpdate (sigma priceDiff vega : float) : float :=
  let sigma := sigma - priceDiff / vega in
  let sigma := if sigma <=? 0 then 0.01 else sigma in
  if gt sigma 5 then 5 else sigma.

Fixpoint ivLoop (p : IVParams) (remaining : nat) (sigma : float)
    : completion LoopExit :=
  match remaining with
  | O => Normal (Fell sigma)
  | S remaining' =>
      result <- greeksAt p sigma ;;
      let priceDiff := g_price result - optionPrice p in
      if Math_abs priceDiff <? tolerance p then
        Normal (Returned (Math_round (sigma * 10000) / 10000))
      else
        let vega := g_vega result * 100 in
        if strict_eq vega 0 then Normal (Fell sigma)
        else ivLoop p remaining' (newtonUpdate sigma priceDiff vega)
  end.

(** Calculate implied volatility using Newton-Raphson method. *)
Definition calculateImpliedVolatility (p : IVParams) : completion float :=
  exit <- ivLoop p (maxIterations p) 0.2 ;;
  match exit with
  | Returned value => Normal value
  | Fell sigma => Normal (Math_round (sigma * 10000) / 10000)
  end.

End Solver.

(** ** Notions used to state the properties *)

(** The inputs that the kernel's contract excludes: [S <= 0], [K <= 0],
    or [sigma <= 0] together with [T > 0]. *)
Definition outsideDomain (params : GreeksParams) : bool :=
  (spotPrice params <=? 0)
  || (strikePrice params <=? 0)
  || ((volatility params <=? 0) && gt (timeToExpiry params) 0).

(** The volatility interval the solver's guards aim at. *)
Definition inClampRange (sigma : float) : bool :=
  (0.01 <? sigma) && (sigma <=? 5).

Section SolverTrace.

Context {host : HostMath}.

(** What the loop body sees at volatility [sigma]. *)
Definition priceDiffAt (p : IVParams) (sigma : float) : float :=
  match greeksAt p sigma with
  | Normal result => g_price result - optionPrice p
  | Throw _ => nan
  end.

Definition vegaAt (p : IVParams) (sigma : float) : float :=
  match greeksAt p sigma with
  | Normal result => g_vega result * 100
  | Throw _ => nan
  end.

Definition converged (p : IVParams) (sigma : float) : bool :=
  Math_abs (priceDiffAt p sigma) <? tolerance p.

Definition vegaIsZero (p : IVParams) (sigma : float) : bool :=
  strict_eq (vegaAt p sigma) 0.

Definition stops (p : IVParams) (sigma : float) : bool :=
  converged p sigma || vegaIsZero p sigma.

(** One pass that does not stop: the next volatility. *)
Definition newtonStep (p : IVParams) (sigma : float) : float :=
  newtonUpdate sigma (priceDiffAt p sigma) (vegaAt p sigma).

(** The Newton-Raphson iterates from [sigma]; from 0.2 they are the
    volatility of pass [k] of the loop, were the loop not to stop
    before it. *)
Definition iterateFrom (p : IVParams) (sigma : float) (k : nat) : float :=
  Nat.iter k (newtonStep p) sigma.

Definition sigmaAt (p : IVParams) (k : nat) : float :=
  iterateFrom p 0.2 k.

End SolverTrace.

(** The running maximum and minimum that the scanning loop keeps. *)
Definition runMax (m : float) (l : list PricePoint) : float :=
  fold_left (fun m pt => if gt (pl pt) m then pl pt else m) l m.

Definition runMin (m : float) (l : list PricePoint) : float :=
  fold_left (fun m pt => if pl pt <? m then pl pt else m) l m.

Definition round4 (x : float) : float := Math_round (x * 10000) / 10000.

(** The distance between [call - put] and [S - K e^(-rT)] for one set of
    inputs, both sides evaluated in doubles by the host. *)
Definition priceOf (c : completion Greeks) : float :=
  match c with
  | Normal g => g_price g
  | Throw _ => nan
  end.

Definition parityGap {host : HostMath} (S K T r sigma : float) : float :=
  Math_abs
    (priceOf (calculateGreeks (mkGreeksParams S K T r sigma "call"))
     - priceOf (calculateGreeks (mkGreeksParams S K T r sigma "put"))
     - (S - K * Math_exp ((- r) * T))).

(** A grid of ordinary inputs: 3 spots, 4 strikes, 4 maturities, 2 rates
    and 4 volatilities. *)
Definition parityGrid : list (float * float * float * float * float) :=
  flat_map (fun spot =>
    flat_map (fun strike =>
      flat_map (fun maturity =>
        flat_map (fun rate =>
          map (fun vol => (spot, strike, maturity, rate, vol))
              [0.1; 0.2; 0.5; 1])
          [0.01; 0.05])
        [0.1; 0.5; 1; 2])
      [80; 100; 110; 150])
    [90; 100; 125].

(** ** Notions used to state further properties of the engine *)

(** The test the scan applies to two adjacent P&L values. *)
Definition crosses (prevPL curPL : float) : bool :=
  ((prevPL <? 0) && ge curPL 0) || (gt prevPL 0 && (curPL <=? 0)).

Definition noPoint : PricePoint := mkPricePoint nan nan.

(** The breakeven prices of a curve, read by index: the price at [i + 1]
    for every [i] whose P&L and the next one pass the test. *)
Definition crossingPrices (curve : list PricePoint) : list float :=
  map (fun i => price (nth (S i) curve noPoint))
      (filter
         (fun i =>
            crosses (pl (nth i curve noPoint))
                    (pl (nth (S i) curve noPoint)))
         (seq 0 (List.length curve - 1))).

(** The leg with its quantity negated (the other side of the trade) and
    the leg with another option type. *)
Definition opposite (position : Position) : Position :=
  mkPosition (type position) (optionType position) (strike position)
    (premium position) (- quantity position) (expiry position).

Definition withOptionType (kind : string) (position : Position) : Position :=
  mkPosition (type position) kind (strike position) (premium position)
    (quantity position) (expiry position).

Definition withExpiry (date : Date) (position : Position) : Position :=
  mkPosition (type position) (optionType position) (strike position)
    (premium position) (quantity position) date.

Definition isOptionLeg (position : Position) : bool :=
  String.eqb (type position) "option".

(** A call at a price at or below its strike, and a put (any other
    option type) at a price at or above it. *)
Definition outOfTheMoney (stockPrice : float) (position : Position) : bool :=
  if String.eqb (optionType position) "call"
  then stockPrice <=? strike position
  else strike position <=? stockPrice.

(** A call at a price above its strike, and a put (any other option
    type) at a price below it. *)
Definition inTheMoney (stockPrice : float) (position : Position) : bool :=
  if String.eqb (optionType position) "call"
  then strike position <? stockPrice
  else stockPrice <? strike position.

(** The order that [SFcompare] reads on positive numbers: first the
    exponent, then the mantissa. *)
Definition lexle (m1 : positive) (e1 : Z) (m2 : positive) (e2 : Z) : Prop :=
  (e1 < e2)%Z \/ (e1 = e2 /\ (Zpos m1 <= Zpos m2)%Z).

(** A number that is not NaN and has the given sign. *)
Definition signed (s : bool) (x : spec_float) : Prop :=
  match x with
  | S754_zero s' | S754_infinity s' | S754_finite s' _ _ => s' = s
  | S754_nan => False
  end.

(** Zero and the negative numbers. *)
Definition nonpos (x : spec_float) : Prop :=
  match x with
  | S754_zero _ | S754_infinity true | S754_finite true _ _ => True
  | _ => False
  end.

Definition finite_or_zero (x : spec_float) : Prop :=
  match x with
  | S754_zero _ | S754_finite _ _ _ => True
  | _ => False
  end.

(** ** config.js *)

Local Open Scope string_scope.

Module config.

(** [process.env] once dotenv has read the .env file: every variable is
    a string or is undefined. *)
Record ProcessEnv : Type := mkProcessEnv {
  ETRADE_CONSUMER_KEY : option string;
  ETRADE_CONSUMER_SECRET : option string;
  ETRADE_ENV : option string;
  ETRADE_ACCESS_TOKEN : option string;
  ETRADE_ACCESS_TOKEN_SECRET : option string
}.

(** A string or undefined, read as a condition: undefined and the empty
    string are falsy. *)
Definition truthy (v : option string) : bool :=
  match v with
  | Some s => negb (String.eqb s EmptyString)
  | None => false
  end.

Record Config : Type := mkConfig {
  consumerKey : option string;
  consumerSecret : option string;
  environment : string;
  accessToken : option string;
  accessTokenSecret : option string
}.

Definition ETRADE_CONFIG (env : ProcessEnv) : Config :=
  mkConfig
    (ETRADE_CONSUMER_KEY env)
    (ETRADE_CONSUMER_SECRET env)
    (match ETRADE_ENV env with
     | Some s => if String.eqb s EmptyString then "sandbox" else s
     | None => "sandbox"
     end)
    (ETRADE_ACCESS_TOKEN env)
    (ETRADE_ACCESS_TOKEN_SECRET env).

Definition baseUrl (this : Config) : string :=
  if String.eqb (environment this) "production"
  then "https://api.etrade.com"
  else "https://apisb.etrade.com".

Definition oauthUrl (this : Config) : string :=
  if String.eqb (environment this) "production"
  then "https://api.etrade.com/oauth"
  else "https://apisb.etrade.com/oauth".

(** The lines written with [console.error], and the result. *)
Definition validateConfig (ETRADE_CONFIG : Config) : list string * bool :=
  if negb (truthy (consumerKey ETRADE_CONFIG))
     || negb (truthy (consumerSecret ETRADE_CONFIG))
  then
    ([ "Missing E*TRADE API credentials!";
       "1. Go to https://developer.etrade.com/ and register for API access";
       "2. Copy .env.example to .env and fill in your credentials" ],
     false)
  else ([], true).

End config.

(** ** etrade/oauth.js *)

Module oauth.

(** An [OAuth1Client] of the E*TRADE library is represented by the
    options it was constructed with, and the client that [auth] returns
    by the client and the credentials given to [auth]. *)
Record OAuth1Client : Type := mkOAuth1Client {
  key : option string;
  secret : option string;
  callbackURL : string;
  requestUrl : string;
  accessUrl : string;
  apiHostName : string
}.

Record AuthenticatedClient : Type := mkAuthenticatedClient {
  oauthClient : OAuth1Client;
  token : option string;
  tokenSecret : option string
}.

(** The values that travel in query parameters and request bodies:
    undefined, a string, and the number [Number(text)], which the program
    computes and hands over without reading it; and an object of such
    values with its properties in insertion order, or null. *)
Inductive JSValue : Type :=
| JSUndefined
| JSString (s : string)
| NumberOf (text : string).

Inductive JSObject : Type :=
| JSNull
| Properties (properties : list (string * JSValue)).

(** A call of a method of the authenticated client: [get(path, null,
    params)], [post(path, JSON.stringify(body))], [put(path,
    JSON.stringify(body))] and [delete(path)]. *)
Inductive Request : Type :=
| Get (client : AuthenticatedClient) (path : string) (params : JSObject)
| Post (client : AuthenticatedClient) (path : string) (body : JSObject)
| Put (client : AuthenticatedClient) (path : string) (body : JSObject)
| Delete (client : AuthenticatedClient) (path : string).

(** What the program does not define: the body of the response to a
    request, or the rejection; it may depend on the requests sent
    before. *)
Class Platform : Type := {
  ResponseBody : Type;
  respond : list Request -> Request -> completion ResponseBody
}.

(** What an asynchronous call can change: the module variable
    [etradeClient] of oauth.js ([None] for [null]) and the requests sent
    so far. *)
Record World : Type := mkWorld {
  etradeClient : option OAuth1Client;
  sent : list Request
}.

(** An asynchronous function: it fulfils or rejects, and leaves a
    world. *)
Definition Async (A : Type) : Type := World -> completion A * World.

Definition resolve {A : Type} (value : A) : Async A :=
  fun w => (Normal value, w).

Definition reject {A : Type} (exn : JSError) : Async A :=
  fun w => (Throw exn, w).

Definition await {A B : Type} (c : Async A) (k : A -> Async B) : Async B :=
  fun w =>
    match c w with
    | (Normal value, w') => k value w'
    | (Throw exn, w') => (Throw exn, w')
    end.

(** A synchronous call inside an asynchronous function. *)
Definition sync {A : Type} (c : completion A) : Async A :=
  fun w => (c, w).

(** [s.slice(start)]. *)
Definition slice (start : nat) (s : string) : string :=
  substring start (String.length s - start) s.

Section Calls.

Context {platform : Platform}.

Variable ETRADE_CONFIG : config.Config.

(** Sending one request and reading [response.body]. *)
Definition send (request : Request) : Async ResponseBody :=
  fun w =>
    (respond (sent w) request,
     mkWorld (etradeClient w) (sent w ++ [request])%list).

Definition getEtradeClient : Async OAuth1Client :=
  fun w =>
    match etradeClient w with
    | Some client => (Normal client, w)
    | None =>
        let baseUrl := config.baseUrl ETRADE_CONFIG in
        let hostname := slice 8 baseUrl in
        let client :=
          mkOAuth1Client
            (config.consumerKey ETRADE_CONFIG)
            (config.consumerSecret ETRADE_CONFIG)
            "oob"
            (baseUrl ++ "/oauth/request_token")
            (baseUrl ++ "/oauth/access_token")
            hostname in
        (Normal client, mkWorld (Some client) (sent w))
    end.

(** [accessToken && accessTokenSecret]: the value, which the callers read
    as a condition. *)
Definition hasValidAccessToken : option string :=
  if config.truthy (config.accessToken ETRADE_CONFIG)
  then config.accessTokenSecret ETRADE_CONFIG
  else config.accessToken ETRADE_CONFIG.

Definition getAuthenticatedClient : Async AuthenticatedClient :=
  if negb (config.truthy hasValidAccessToken) then
    reject (Error "No valid access token. Run `npm run auth` first.")
  else
    await getEtradeClient (fun client =>
    resolve
      (mkAuthenticatedClient client
         (config.accessToken ETRADE_CONFIG)
         (config.accessTokenSecret ETRADE_CONFIG))).

Definition apiGet (path : string) (params : JSObject) : Async ResponseBody :=
  await getAuthenticatedClient (fun client =>
  send (Get client path params)).

Definition apiPost (path : string) (body : JSObject) : Async ResponseBody :=
  await getAuthenticatedClient (fun client =>
  send (Post client path body)).

Definition apiPut (path : string) (body : JSObject) : Async ResponseBody :=
  await getAuthenticatedClient (fun client =>
  send (Put client path body)).

Definition apiDelete (path : string) : Async ResponseBody :=
  await getAuthenticatedClient (fun client =>
  send (Delete client path)).

End Calls.

End oauth.

(** ** etrade/client.js *)

Module client.

(** [{ ...target, key: value }] on a list of properties: an existing key
    keeps its place and takes the new value, a new key goes last. *)
Fixpoint setProperty (key : string) (value : oauth.JSValue)
    (properties : list (string * oauth.JSValue))
    : list (string * oauth.JSValue) :=
  match properties with
  | [] => [(key, value)]
  | (key', value') :: rest =>
      if String.eqb key key' then (key, value) :: rest
      else (key', value') :: setProperty key value rest
  end.

Definition spread (target source : list (string * oauth.JSValue))
    : list (string * oauth.JSValue) :=
  fold_left (fun acc kv => setProperty (fst kv) (snd kv) acc) source target.

(** A string or undefined inside a template literal. *)
Definition interpolate (v : option string) : string :=
  match v with
  | Some s => s
  | None => "undefined"
  end.

Definition stringValue (v : option string) : oauth.JSValue :=
  match v with
  | Some s => oauth.JSString s
  | None => oauth.JSUndefined
  end.

(** The argument of [getQuote]: a string or an array of strings. *)
Inductive Symbols : Type :=
| SymbolList (text : string)
| SymbolArray (items : list string).

Section ETradeClient.

Context {platform : oauth.Platform}.

Variable ETRADE_CONFIG : config.Config.

Definition request (endpoint method : string) (body params : oauth.JSObject)
    : oauth.Async oauth.ResponseBody :=
  if negb (config.truthy (oauth.hasValidAccessToken ETRADE_CONFIG)) then
    oauth.reject (Error "Not authenticated. Run: npm run auth")
  else if String.eqb method "GET" then
    oauth.apiGet ETRADE_CONFIG endpoint params
  else if String.eqb method "POST" then
    oauth.apiPost ETRADE_CONFIG endpoint body
  else
    oauth.reject (Error ("Unsupported method: " ++ method)).

Definition getOptionsChain (symbol : option string)
    (options : list (string * oauth.JSValue))
    : oauth.Async oauth.ResponseBody :=
  let params := spread [("symbol", stringValue symbol)] options in
  request "/v1/market/optionchains.json" "GET" oauth.JSNull
    (oauth.Properties params).

Definition getOptionExpiries (symbol : option string)
    : oauth.Async oauth.ResponseBody :=
  request "/v1/market/optionexpiredate.json" "GET" oauth.JSNull
    (oauth.Properties [("symbol", stringValue symbol)]).

Definition getQuote (symbols : option Symbols)
    : oauth.Async oauth.ResponseBody :=
  let symbolList :=
    match symbols with
    | Some (SymbolArray items) => String.concat "," items
    | Some (SymbolList text) => text
    | None => "undefined"
    end in
  request ("/v1/market/quote/" ++ symbolList ++ ".json") "GET" oauth.JSNull
    oauth.JSNull.

Definition getAccounts : oauth.Async oauth.ResponseBody :=
  request "/v1/accounts/list.json" "GET" oauth.JSNull oauth.JSNull.

Definition getAccountBalance (accountIdKey : option string)
    : oauth.Async oauth.ResponseBody :=
  request ("/v1/accounts/" ++ interpolate accountIdKey ++ "/balance.json")
    "GET" oauth.JSNull
    (oauth.Properties
       [ ("instType", oauth.JSString "BROKERAGE");
         ("realTimeNAV", oauth.JSString "true") ]).

Definition getPositions (accountIdKey : option string)
    : oauth.Async oauth.ResponseBody :=
  request ("/v1/accounts/" ++ interpolate accountIdKey ++ "/portfolio.json")
    "GET" oauth.JSNull oauth.JSNull.

End ETradeClient.

End client.

(** ** tools/index.js *)

Module tools.

Import Ascii.

(** The [name] of each entry of the [tools] array, in order. *)
Definition toolNames : list string :=
  [ "get_options_chain"; "get_option_expiries"; "get_quote";
    "get_accounts"; "get_positions";
    "calculate_greeks"; "calculate_implied_volatility";
    "analyze_covered_call"; "analyze_vertical_spread";
    "analyze_iron_condor"; "analyze_straddle"; "calculate_pl_chart" ].

(** The arguments object of a tool call, with the types the input
    schemas give to its properties.  A string property, an optional
    number and the position array are [None] when the object leaves
    them out; a number that only enters arithmetic is NaN when left
    out, which is what undefined is there; [arg_expiry] is the time
    value of [new Date(args.expiry)], as in [analyzeStrategy]. *)
Record Args : Type := mkArgs {
  arg_symbol : option string;
  arg_expiryDate : option string;
  arg_symbols : option client.Symbols;
  arg_accountIdKey : option string;
  arg_spotPrice : float;
  arg_strikePrice : float;
  arg_timeToExpiry : float;
  arg_volatility : float;
  arg_optionType : option string;
  arg_riskFreeRate : option float;
  arg_optionPrice : float;
  arg_stockPrice : float;
  arg_callStrike : float;
  arg_callPremium : float;
  arg_expiry : Date;
  arg_spreadType : option string;
  arg_lowerStrike : float;
  arg_lowerPremium : float;
  arg_upperStrike : float;
  arg_upperPremium : float;
  arg_putLowerStrike : float;
  arg_putLowerPremium : float;
  arg_putUpperStrike : float;
  arg_putUpperPremium : float;
  arg_callLowerStrike : float;
  arg_callLowerPremium : float;
  arg_callUpperStrike : float;
  arg_callUpperPremium : float;
  arg_strike : float;
  arg_putPremium : float;
  arg_positions : option (list Position);
  arg_priceRangePercent : option float
}.

(** [value || fallback] on an optional number: undefined, NaN, [+0] and
    [-0] are falsy. *)
Definition orNumber (value : option float) (fallback : float) : float :=
  match value with
  | Some x => if PrimFloat.is_nan x || PrimFloat.eqb x 0 then fallback else x
  | None => fallback
  end.

(** A default parameter value: it replaces undefined only. *)
Definition orDefault (value : option string) (default : string) : string :=
  match value with
  | Some s => s
  | None => default
  end.

(** [s.split(separator)] for a one-character separator. *)
Fixpoint split (separator : Ascii.ascii) (s : string) : list string :=
  match s with
  | EmptyString => [EmptyString]
  | String c rest =>
      if Ascii.eqb c separator then EmptyString :: split separator rest
      else
        match split separator rest with
        | first :: others => String c first :: others
        | [] => [String c EmptyString]
        end
  end.

(** An element of [parts.map(Number)] read by destructuring. *)
Definition element (i : nat) (parts : list string) : oauth.JSValue :=
  match nth_error parts i with
  | Some text => oauth.NumberOf text
  | None => oauth.JSUndefined
  end.

Section Handler.

Context {host : HostMath} {platform : oauth.Platform}.

Variable ETRADE_CONFIG : config.Config.

(** What a tool call resolves to. *)
Inductive ToolResult : Type :=
| Data (body : oauth.ResponseBody)
| GreeksOf (greeks : Greeks)
| ImpliedVolatilityOf (impliedVolatility : float)
| Analysis (metrics : StrategyMetrics)
| Chart (priceRange : list float) (plData : list PricePoint).

Definition data (call : oauth.Async oauth.ResponseBody)
    : oauth.Async ToolResult :=
  oauth.await call (fun body => oauth.resolve (Data body)).

Definition analysis (positions : list Position) (spotPrice : float)
    (expiry : Date) : oauth.Async ToolResult :=
  oauth.sync
    (metrics <- analyzeStrategy positions spotPrice expiry ;;
     Normal (Analysis metrics)).

(** Tool handler implementation. *)
Definition handleToolCall (name : string) (args : Args)
    : oauth.Async ToolResult :=
  if String.eqb name "get_options_chain" then
    let options :=
      match arg_expiryDate args with
      | Some expiryDate =>
          if config.truthy (Some expiryDate) then
            let parts := split "-" expiryDate in
            [ ("expiryYear", element 0 parts);
              ("expiryMonth", element 1 parts);
              ("expiryDay", element 2 parts) ]
          else []
      | None => []
      end in
    data (client.getOptionsChain ETRADE_CONFIG (arg_symbol args) options)
  else if String.eqb name "get_option_expiries" then
    data (client.getOptionExpiries ETRADE_CONFIG (arg_symbol args))
  else if String.eqb name "get_quote" then
    data (client.getQuote ETRADE_CONFIG (arg_symbols args))
  else if String.eqb name "get_accounts" then
    data (client.getAccounts ETRADE_CONFIG)
  else if String.eqb name "get_positions" then
    data (client.getPositions ETRADE_CONFIG (arg_accountIdKey args))
  else if String.eqb name "calculate_greeks" then
    oauth.sync
      (greeks <-
         calculateGreeks
           (mkGreeksParams
              (arg_spotPrice args)
              (arg_strikePrice args)
              (arg_timeToExpiry args)
              (orNumber (arg_riskFreeRate args) 0.05)
              (arg_volatility args)
              (orDefault (arg_optionType args) default_optionType)) ;;
       Normal (GreeksOf greeks))
  else if String.eqb name "calculate_implied_volatility" then
    oauth.sync
      (impliedVolatility <-
         calculateImpliedVolatility
           (mkIVParams
              (arg_optionPrice args)
              (arg_spotPrice args)
              (arg_strikePrice args)
              (arg_timeToExpiry args)
              (orNumber (arg_riskFreeRate args) 0.05)
              (orDefault (arg_optionType args) default_optionType)
              default_maxIterations
              default_tolerance) ;;
       Normal (ImpliedVolatilityOf impliedVolatility))
  else if String.eqb name "analyze_covered_call" then
    let positions :=
      strategies.coveredCall (arg_stockPrice args) (arg_callStrike args)
        (arg_callPremium args) (arg_expiry args) in
    analysis positions (arg_stockPrice args) (arg_expiry args)
  else if String.eqb name "analyze_vertical_spread" then
    let positions :=
      match arg_spreadType args with
      | Some spreadType =>
          if String.eqb spreadType "bull_call"
          then strategies.bullCallSpread
                 (arg_lowerStrike args) (arg_lowerPremium args)
                 (arg_upperStrike args) (arg_upperPremium args)
                 (arg_expiry args)
          else strategies.bearPutSpread
                 (arg_lowerStrike args) (arg_lowerPremium args)
                 (arg_upperStrike args) (arg_upperPremium args)
                 (arg_expiry args)
      | None =>
          strategies.bearPutSpread
            (arg_lowerStrike args) (arg_lowerPremium args)
            (arg_upperStrike args) (arg_upperPremium args)
            (arg_expiry args)
      end in
    analysis positions (arg_spotPrice args) (arg_expiry args)
  else if String.eqb name "analyze_iron_condor" then
    let positions :=
      strategies.ironCondor
        (arg_putLowerStrike args) (arg_putLowerPremium args)
        (arg_putUpperStrike args) (arg_putUpperPremium args)
        (arg_callLowerStrike args) (arg_callLowerPremium args)
        (arg_callUpperStrike args) (arg_callUpperPremium args)
        (arg_expiry args) in
    analysis positions (arg_spotPrice args) (arg_expiry args)
  else if String.eqb name "analyze_straddle" then
    let positions :=
      strategies.longStraddle (arg_strike args) (arg_callPremium args)
        (arg_putPremium args) (arg_expiry args) in
    analysis positions (arg_spotPrice args) (arg_expiry args)
  else if String.eqb name "calculate_pl_chart" then
    oauth.sync
      (priceRange <-
         generatePriceRange (arg_spotPrice args)
           (orNumber (arg_priceRangePercent args) 0.2) 50 ;;
       match arg_positions args with
       | None =>
           Throw
             (TypeError
                "Cannot read properties of undefined (reading '0')")
       | Some positions =>
           let currentDate :=
             match positions with
             | first :: _ => expiry first
             | [] => nan
             end in
           plData <- calculateStrategyPL positions priceRange currentDate ;;
           Normal (Chart priceRange plData)
       end)
  else
    oauth.reject (Error ("Unknown tool: " ++ name)).

End Handler.

End tools.

(** ** index.js *)

Module server.

Import Ascii.

Definition etradeTools : list string :=
  [ "get_options_chain"; "get_option_expiries"; "get_quote";
    "get_accounts"; "get_positions" ].

Definition message (error : JSError) : string :=
  match error with
  | RangeError text | TypeError text | Error text => text
  end.

Section CallTool.

Context {host : HostMath} {platform : oauth.Platform}.

Variable ETRADE_CONFIG : config.Config.

(** The object whose JSON text is the [text] of the response's single
    content item. *)
Inductive Payload : Type :=
| Result (result : tools.ToolResult)
| NotAuthenticated (error message : string)
| Failure (error tool : string) (args : tools.Args).

(** The response: its content and whether it carries [isError: true]. *)
Record CallToolResponse : Type := mkCallToolResponse {
  content : Payload;
  isError : bool
}.

(** The handler of [CallToolRequestSchema]. *)
Definition callTool (name : string) (args : tools.Args)
    : oauth.World -> CallToolResponse * oauth.World :=
  fun w =>
    if existsb (String.eqb name) etradeTools
       && negb (config.truthy (oauth.hasValidAccessToken ETRADE_CONFIG))
    then
      (mkCallToolResponse
         (NotAuthenticated
            "Not authenticated with E*TRADE"
            ("Run " ++ String "034"%char "npm run auth"
             ++ String "034"%char
                  " in the options-analysis directory to authenticate."))
         false,
       w)
    else
      match tools.handleToolCall ETRADE_CONFIG name args w with
      | (Normal result, w') => (mkCallToolResponse (Result result) false, w')
      | (Throw error, w') =>
          (mkCallToolResponse (Failure (message error) name args) true, w')
      end.

End CallTool.

End server.

(** ** Notions used to state the properties of the tools *)

(** The arguments object with another [riskFreeRate]. *)
Definition withRiskFreeRate (rate : option float) (args : tools.Args)
    : tools.Args :=
  tools.mkArgs
    (tools.arg_symbol args) (tools.arg_expiryDate args)
    (tools.arg_symbols args) (tools.arg_accountIdKey args)
    (tools.arg_spotPrice args) (tools.arg_strikePrice args)
    (tools.arg_timeToExpiry args) (tools.arg_volatility args)
    (tools.arg_optionType args) rate
    (tools.arg_optionPrice args) (tools.arg_stockPrice args)
    (tools.arg_callStrike args) (tools.arg_callPremium args)
    (tools.arg_expiry args) (tools.arg_spreadType args)
    (tools.arg_lowerStrike args) (tools.arg_lowerPremium args)
    (tools.arg_upperStrike args) (tools.arg_upperPremium args)
    (tools.arg_putLowerStrike args) (tools.arg_putLowerPremium args)
    (tools.arg_putUpperStrike args) (tools.arg_putUpperPremium args)
    (tools.arg_callLowerStrike args) (tools.arg_callLowerPremium args)
    (tools.arg_callUpperStrike args) (tools.arg_callUpperPremium args)
    (tools.arg_strike args) (tools.arg_putPremium args)
    (tools.arg_positions args) (tools.arg_priceRangePercent args).

(** The empty arguments object. *)
Definition noArgs : tools.Args :=
  tools.mkArgs None None None None nan nan nan nan None None nan nan nan nan
    nan None nan nan nan nan nan nan nan nan nan nan nan nan nan nan None
    None.

(** A platform for the examples: the server answers every request with
    the same body. *)
Definition answering (body : string) : oauth.Platform :=
  {| oauth.ResponseBody := string;
     oauth.respond := fun _ _ => Normal body |}.

(** A configuration without tokens, and one with both. *)
Definition loggedOut : config.Config :=
  config.ETRADE_CONFIG
    (config.mkProcessEnv (Some "key") (Some "secret") None None None).

Definition loggedIn : config.Config :=
  config.ETRADE_CONFIG
    (config.mkProcessEnv (Some "key") (Some "secret") None
       (Some "token") (Some "tokenSecret")).

(** A string without the character [c], and one without a dash. *)
Fixpoint without (c : Ascii.ascii) (s : string) : bool :=
  match s with
  | EmptyString => true
  | String c' rest => negb (Ascii.eqb c' c) && without c rest
  end.

Definition dashFree (s : string) : bool :=
  without (Ascii.ascii_of_nat 45) s.

Local Close Scope string_scope.

(** * Properties *)

(** ** Order of binary64 numbers *)

Module FloatOrder.

Lemma SFcompare_antisym (x y : spec_float) :
  SFcompare y x = option_map CompOpp (SFcompare x y).
Proof.
  destruct x as [sx|sx| |sx mx ex], y as [sy|sy| |sy my ey]; simpl;
    try reflexivity;
    try (destruct sx; reflexivity);
    try (destruct sy; reflexivity);
    try (destruct sx, sy; reflexivity).
  change (Pos.compare_cont Eq my mx) with (Pos.compare my mx).
  change (Pos.compare_cont Eq mx my) with (Pos.compare mx my).
  rewrite (Z.compare_antisym ex ey), (Pos.compare_antisym mx my).
  destruct sx, sy; simpl; try reflexivity;
    destruct (ex ?= ey)%Z, (mx ?= my)%positive; reflexivity.
Qed.

Lemma SFltb_trans (x y z : spec_float) :
  SFltb x y = true -> SFltb y z = true -> SFltb x z = true.
Proof.
  unfold SFltb.
  destruct x as [sx|sx| |sx mx ex], y as [sy|sy| |sy my ey],
           z as [sz|sz| |sz mz ez]; simpl;
    try discriminate; try reflexivity;
    try (destruct sx; simpl; try discriminate; try reflexivity);
    try (destruct sy; simpl; try discriminate; try reflexivity);
    try (destruct sz; simpl; try discriminate; try reflexivity).
  all: change (Pos.compare_cont Eq) with Pos.compare.
  all: destruct (Z.compare_spec ex ey), (Z.compare_spec ey ez),
         (Z.compare_spec ex ez); subst; simpl;
       try discriminate; try reflexivity; try lia.
  all: destruct (Pos.compare_spec mx my), (Pos.compare_spec my mz),
         (Pos.compare_spec mx mz); subst; simpl;
       try discriminate; try reflexivity; try lia.
Qed.

Lemma ltb_trans (x y z : float) :
  (x <? y) = true -> (y <? z) = true -> (x <? z) = true.
Proof. rewrite !ltb_spec. apply SFltb_trans. Qed.

Lemma is_nan_spec (x : float) :
  PrimFloat.is_nan x = true <-> Prim2SF x = S754_nan.
Proof.
  unfold PrimFloat.is_nan. rewrite eqb_spec. unfold SFeqb.
  destruct (Prim2SF x) as [s|s| |s m e]; simpl.
  - split; discriminate.
  - destruct s; split; discriminate.
  - split; reflexivity.
  - change (Pos.compare_cont Eq m m) with (Pos.compare m m).
    rewrite Z.compare_refl, Pos.compare_refl.
    destruct s; split; discriminate.
Qed.

(** Among numbers, [x <= y] fails exactly when [y < x]. *)
Lemma leb_false_ltb (x y : float) :
  PrimFloat.is_nan x = false -> PrimFloat.is_nan y = false ->
  (x <=? y) = false -> (y <? x) = true.
Proof.
  intros Hx Hy. rewrite leb_spec, ltb_spec. unfold SFleb, SFltb.
  rewrite (SFcompare_antisym (Prim2SF x) (Prim2SF y)).
  assert (Prim2SF x <> S754_nan)
    by (intro E; apply is_nan_spec in E; congruence).
  assert (Prim2SF y <> S754_nan)
    by (intro E; apply is_nan_spec in E; congruence).
  destruct (SFcompare (Prim2SF x) (Prim2SF y)) as [[]|] eqn:E; simpl;
    try discriminate; try reflexivity.
  destruct (Prim2SF x) as [sx|sx| |sx mx ex],
           (Prim2SF y) as [sy|sy| |sy my ey]; simpl in E;
    try discriminate; congruence.
Qed.

Lemma ltb_false_leb (x y : float) :
  PrimFloat.is_nan x = false -> PrimFloat.is_nan y = false ->
  (y <? x) = false -> (x <=? y) = true.
Proof.
  intros Hx Hy. rewrite leb_spec, ltb_spec. unfold SFleb, SFltb.
  rewrite (SFcompare_antisym (Prim2SF x) (Prim2SF y)).
  assert (Prim2SF x <> S754_nan)
    by (intro E; apply is_nan_spec in E; congruence).
  assert (Prim2SF y <> S754_nan)
    by (intro E; apply is_nan_spec in E; congruence).
  destruct (SFcompare (Prim2SF x) (Prim2SF y)) as [[]|] eqn:E; simpl;
    try discriminate; try reflexivity.
  destruct (Prim2SF x) as [sx|sx| |sx mx ex],
           (Prim2SF y) as [sy|sy| |sy my ey]; simpl in E;
    try discriminate; congruence.
Qed.

End FloatOrder.

Import FloatOrder.

(** ** No call of the engine completes abruptly *)

Section Totality.

Context {host : HostMath}.

Lemma calculateGreeks_returns (params : GreeksParams) :
  returns (calculateGreeks params).
Proof.
  unfold returns, calculateGreeks.
  destruct (timeToExpiry params <=? 0).
  - eexists; reflexivity.
  - destruct (calculateD1D2 _ _ _ _ _) as [d1 d2].
    destruct (String.eqb (gp_optionType params) "call");
      eexists; reflexivity.
Qed.

Lemma greeksAt_returns (p : IVParams) (sigma : float) :
  returns (greeksAt p sigma).
Proof. apply calculateGreeks_returns. Qed.

End Totality.

Lemma generatePriceRange_returns (centerPrice percentRange : float)
    (steps : nat) :
  returns (generatePriceRange centerPrice percentRange steps).
Proof. eexists; reflexivity. Qed.

Lemma generatePriceRange_length (centerPrice percentRange : float)
    (steps : nat) (grid : list float) :
  generatePriceRange centerPrice percentRange steps = Normal grid ->
  List.length grid = (steps + 1)%nat.
Proof.
  unfold generatePriceRange. cbv zeta. intros H. injection H as <-.
  rewrite length_map, length_seq. reflexivity.
Qed.

Lemma calculateStrategyPL_length (positions : list Position)
    (priceRange : list float) (currentDate : Date)
    (curve : list PricePoint) :
  calculateStrategyPL positions priceRange currentDate = Normal curve ->
  List.length curve = List.length priceRange.
Proof.
  unfold calculateStrategyPL. intros H. injection H as <-.
  apply length_map.
Qed.

Lemma calculateStrategyPL_returns (positions : list Position)
    (priceRange : list float) (currentDate : Date) :
  returns (calculateStrategyPL positions priceRange currentDate).
Proof. eexists; reflexivity. Qed.

Lemma analyzeStrategy_returns (positions : list Position)
    (spotPrice : float) (expiry : Date) :
  returns (analyzeStrategy positions spotPrice expiry).
Proof. eexists; reflexivity. Qed.

(** ** C1: domain violations *)

(** C1, as stated, fails.  The kernel is called with a non-positive spot
    (and an expired option), and with [sigma = 0] and [T = 1]; the curve
    is requested over an empty grid, and for a strategy without legs,
    which is then analyzed.  Every one of the calls returns a value. *)
Lemma C1_domain_violation_returns_value :
  outsideDomain (mkGreeksParams (-1) 100 0 0.05 0.2 "call") = true
  /\ calculateGreeks (mkGreeksParams (-1) 100 0 0.05 0.2 "call")
     = Normal (mkGreeks 0 0 0 0 0 0)
  /\ outsideDomain (mkGreeksParams 100 100 1 0.05 0 "call") = true
  /\ calculateGreeks (mkGreeksParams 100 100 1 0.05 0 "call")
     = Normal (mkGreeks 4.88 1 nan (-0.01) 0 0.95)
  /\ calculateStrategyPL (strategies.longCall 100 5 0) [] 0 = Normal []
  /\ calculateStrategyPL [] [90; 100; 110] 0
     = Normal [mkPricePoint 90 0; mkPricePoint 100 0; mkPricePoint 110 0]
  /\ (exists m,
        analyzeStrategy [] 100 0 = Normal m
        /\ maxProfit m = Num 0 /\ maxLoss m = Num 0 /\ netPremium m = 0).
Proof.
  do 6 (split; [ vm_compute; reflexivity | ]).
  eexists. split; [ vm_compute; reflexivity | ].
  vm_compute. repeat split.
Qed.

(** C1, amended: the engine validates nothing.  For every host and every
    input the kernel returns a record, the curve and the analysis are
    returned for every argument, an empty grid gives the empty curve and
    a strategy without legs gives a P&L of 0 at every grid price. *)
Theorem C1_no_domain_error :
  forall (host : HostMath) (params : GreeksParams)
         (positions : list Position) (priceRange : list float)
         (spotPrice : float) (currentDate : Date),
    returns (calculateGreeks params)
    /\ ~ raises (calculateGreeks params)
    /\ returns (calculateStrategyPL positions priceRange currentDate)
    /\ ~ raises (calculateStrategyPL positions priceRange currentDate)
    /\ returns (analyzeStrategy positions spotPrice currentDate)
    /\ calculateStrategyPL positions [] currentDate = Normal []
    /\ calculateStrategyPL [] priceRange currentDate
       = Normal (map (fun price => mkPricePoint price 0) priceRange).
Proof.
  intros host params positions priceRange spotPrice currentDate.
  pose proof (calculateGreeks_returns params) as [g Hg].
  split; [ exists g; exact Hg | ].
  split; [ intros [e He]; congruence | ].
  split; [ apply calculateStrategyPL_returns | ].
  split; [ intros [e He]; discriminate He | ].
  split; [ apply analyzeStrategy_returns | ].
  split; reflexivity.
Qed.

(** ** C4: the expired branch of the kernel *)



(** ** C5: profit and loss of one position *)

Lemma calculatePositionPL_option (position : Position)
    (stockPrice : float) (currentDate : Date) :
  type position = "option"%string ->
  calculatePositionPL position stockPrice currentDate
  = ((if String.eqb (optionType position) "call"
      then Math_max 0 (stockPrice - strike position)
      else Math_max 0 (strike position - stockPrice))
     - premium position) * quantity position * 100.
Proof.
  intros Htype. unfold calculatePositionPL. rewrite Htype. simpl.
  destruct (Math_max 0 _ <=? 0); reflexivity.
Qed.



(** ** C2: the bull call spread 100/110 *)

Lemma bullCallSpread_curve_date (lowerStrike lowerPremium upperStrike
    upperPremium : float) (expiry expiry' currentDate currentDate' : Date)
    (priceRange : list float) :
  calculateStrategyPL
    (strategies.bullCallSpread lowerStrike lowerPremium upperStrike
       upperPremium expiry) priceRange currentDate
  = calculateStrategyPL
      (strategies.bullCallSpread lowerStrike lowerPremium upperStrike
         upperPremium expiry') priceRange currentDate'.
Proof.
  unfold calculateStrategyPL. f_equal. apply map_ext. intros stockPrice.
  unfold strategies.bullCallSpread. simpl fold_left.
  rewrite !calculatePositionPL_option by reflexivity.
  reflexivity.
Qed.

Lemma bullCallSpread_analysis_date (lowerStrike lowerPremium upperStrike
    upperPremium spot : float) (expiry : Date) :
  analyzeStrategy
    (strategies.bullCallSpread lowerStrike lowerPremium upperStrike
       upperPremium expiry) spot expiry
  = analyzeStrategy
      (strategies.bullCallSpread lowerStrike lowerPremium upperStrike
         upperPremium 0) spot 0.
Proof.
  unfold analyzeStrategy.
  destruct (generatePriceRange_returns spot 0.3 100) as [grid ->].
  cbn [bind].
  rewrite (bullCallSpread_curve_date _ _ _ _ expiry 0 expiry 0).
  reflexivity.
Qed.

(** C2, as stated, fails: for the spread 100/5 against 110/2 the
    analyzer reports a net premium of +300, not -300. *)
Lemma C2_net_premium_is_positive :
  exists m,
    analyzeStrategy (strategies.bullCallSpread 100 5 110 2 1767225600000)
      105 1767225600000 = Normal m
    /\ netPremium m = 300
    /\ (netPremium m =? -300) = false.
Proof.
  eexists. split; [ vm_compute; reflexivity | ].
  vm_compute. split; reflexivity.
Qed.

(** C2, amended: with the spot at 105 (the grid then runs from 73.5 to
    136.5 and passes both strikes) and any expiry, the analyzer returns
    netPremium = +300 (premium x quantity x 100 summed over the legs, a
    debit being positive), maxLoss = -300, which is the P&L at every grid
    price at or below 100, and maxProfit = 700, the P&L at every grid
    price at or above 110. *)
Theorem C2_bull_call_spread_metrics :
  forall expiry : Date,
    exists m,
      analyzeStrategy (strategies.bullCallSpread 100 5 110 2 expiry)
        105 expiry = Normal m
      /\ netPremium m = 5 * 1 * 100 + 2 * (-1) * 100
      /\ netPremium m = 300
      /\ maxLoss m = Num (-300)
      /\ maxProfit m = Num 700
      /\ In (mkPricePoint 73.5 (-300)) (plData m)
      /\ In (mkPricePoint 136.5 700) (plData m)
      /\ (forall pt, In pt (plData m) ->
            (price pt <=? 100) = true -> pl pt = -300)
      /\ (forall pt, In pt (plData m) ->
            (110 <=? price pt) = true -> pl pt = 700)
      /\ (forall spotPrice : float,
            exists m',
              analyzeStrategy (strategies.bullCallSpread 100 5 110 2 expiry)
                spotPrice expiry = Normal m'
              /\ netPremium m' = 300).
Proof.
  intros expiry.
  assert (Hnet : forall spotPrice : float,
            exists m',
              analyzeStrategy (strategies.bullCallSpread 100 5 110 2 expiry)
                spotPrice expiry = Normal m'
              /\ netPremium m' = 300).
  { intros spotPrice. eexists. split; reflexivity. }
  revert Hnet.
  rewrite bullCallSpread_analysis_date. intros Hnet.
  eexists. split; [ vm_compute; reflexivity | ].
  cbv beta iota delta [netPremium maxLoss maxProfit plData].
  split; [ vm_compute; reflexivity | ].
  split; [ reflexivity | ].
  split; [ reflexivity | ].
  split; [ reflexivity | ].
  split; [ left; reflexivity | ].
  split.
  { match goal with
    | |- In ?x ?l =>
        change x with (nth 100 l (mkPricePoint 0 0)); apply nth_In
    end.
    apply Nat.ltb_lt. vm_compute. reflexivity. }
  split; [ | split ].
  - intros pt Hin Hle.
    match goal with
    | H : In pt ?l |- _ =>
        assert (Hall :
          forallb (fun q => implb (price q <=? 100)
                              (PrimFloat.Leibniz.eqb (pl q) (-300))) l
          = true) by (vm_compute; reflexivity)
    end.
    rewrite forallb_forall in Hall. specialize (Hall pt Hin).
    rewrite Hle in Hall. simpl in Hall.
    apply FloatAxioms.Leibniz.eqb_spec in Hall. exact Hall.
  - intros pt Hin Hle.
    match goal with
    | H : In pt ?l |- _ =>
        assert (Hall :
          forallb (fun q => implb (110 <=? price q)
                              (PrimFloat.Leibniz.eqb (pl q) 700)) l
          = true) by (vm_compute; reflexivity)
    end.
    rewrite forallb_forall in Hall. specialize (Hall pt Hin).
    rewrite Hle in Hall. simpl in Hall.
    apply FloatAxioms.Leibniz.eqb_spec in Hall. exact Hall.
  - exact Hnet.
Qed.

(** ** C6: the price grid *)

(** C6, as stated, fails in its general part.  With a step count of 0
    the step size is a division by zero and the single point returned is
    NaN, not [C * (1 - f)] rounded.  With C = 5.25, f = 0.3 and 50 steps
    the last point is 6.82, while [C * (1 + f)] rounded to 2 decimals is
    6.83. *)
Lemma C6_grid_misses_bounds :
  generatePriceRange 100 0.2 0 = Normal [nan]
  /\ (hd 0 [nan] =? round2 (100 * (1 - 0.2))) = false
  /\ (exists grid,
        generatePriceRange 5.25 0.3 50 = Normal grid
        /\ List.length grid = 51%nat
        /\ nth 50 grid nan = 6.82
        /\ round2 (5.25 * (1 + 0.3)) = 6.83).
Proof.
  split; [ vm_compute; reflexivity | ].
  split; [ vm_compute; reflexivity | ].
  eexists. split; [ vm_compute; reflexivity | ].
  vm_compute. repeat split.
Qed.

(** C6, amended: [generatePriceRange(100, 0.2, 50)] is the 51 doubles
    80.00, 80.80, ..., 120.00, that is [(8000 + 80 i) / 100] for
    [i = 0 .. 50], the first exactly 80 and the last exactly 120; and for
    every centre, fraction and step count [n] the grid has [n + 1]
    points, point [i] being [minPrice + i * stepSize] rounded to 2
    decimals in double arithmetic, with [stepSize] the span divided by
    [n] (for [n = 0] that division is by zero and the point is NaN). *)
Theorem C6_price_grid :
  generatePriceRange 100 0.2 50
  = Normal (map (fun i => of_Z (8000 + 80 * Z.of_nat i) / 100) (seq 0 51))
  /\ (forall (centerPrice percentRange : float) (steps : nat),
        exists grid,
          generatePriceRange centerPrice percentRange steps = Normal grid
          /\ List.length grid = (steps + 1)%nat
          /\ (forall i, (i <= steps)%nat ->
                nth i grid nan
                = round2
                    (centerPrice * (1 - percentRange)
                     + of_nat i
                       * ((centerPrice * (1 + percentRange)
                           - centerPrice * (1 - percentRange))
                          / of_nat steps)))).
Proof.
  split.
  - vm_compute. reflexivity.
  - intros centerPrice percentRange steps. eexists.
    split; [ reflexivity | ]. split.
    + rewrite length_map, length_seq. reflexivity.
    + intros i Hi.
      set (f := fun i : nat => _ / 100).
      rewrite (nth_indep _ nan (f 0%nat))
        by (rewrite length_map, length_seq; lia).
      rewrite (map_nth f), seq_nth by lia.
      reflexivity.
Qed.

Lemma C6_price_grid_witness :
  (50 <= 50)%nat
  /\ exists grid,
       generatePriceRange 100 0.2 50 = Normal grid
       /\ List.length grid = 51%nat
       /\ nth 0 grid nan = 80
       /\ nth 50 grid nan = 120.
Proof.
  split; [ lia | ].
  destruct (proj2 C6_price_grid 100 0.2 50%nat) as [grid [Hg [Hlen Hnth]]].
  exists grid. split; [ exact Hg | ]. split; [ exact Hlen | ]. split.
  - rewrite (Hnth 0%nat) by lia. vm_compute. reflexivity.
  - rewrite (Hnth 50%nat) by lia. vm_compute. reflexivity.
Defined.

(** ** C8: the extremes found by the scan *)

Module ScanFacts.

Lemma scanLoop_maxProfit (l : list PricePoint) :
  forall prev st,
    scan_maxProfit (scanLoop prev l st) = runMax (scan_maxProfit st) l.
Proof.
  induction l as [|cur l IH]; intros prev st; simpl.
  - reflexivity.
  - rewrite IH. reflexivity.
Qed.

Lemma scanLoop_maxLoss (l : list PricePoint) :
  forall prev st,
    scan_maxLoss (scanLoop prev l st) = runMin (scan_maxLoss st) l.
Proof.
  induction l as [|cur l IH]; intros prev st; simpl.
  - reflexivity.
  - rewrite IH. reflexivity.
Qed.

Lemma ltb_irrefl (x : float) : (x <? x) = false.
Proof.
  destruct (x <? x) eqn:E; [ | reflexivity ].
  rewrite ltb_spec in E. unfold SFltb in E.
  pose proof (SFcompare_antisym (Prim2SF x) (Prim2SF x)) as H.
  destruct (SFcompare (Prim2SF x) (Prim2SF x)) as [[]|]; simpl in H;
    first [ discriminate E | discriminate H ].
Qed.

Lemma ltb_false_trans_l (m y x : float) :
  (m <? y) = true -> (m <? x) = false -> (y <? x) = false.
Proof.
  intros Hmy Hmx. destruct (y <? x) eqn:E; [ | reflexivity ].
  rewrite (ltb_trans _ _ _ Hmy E) in Hmx. discriminate.
Qed.

Lemma ltb_false_trans_r (m y x : float) :
  (y <? m) = true -> (x <? m) = false -> (x <? y) = false.
Proof.
  intros Hym Hxm. destruct (x <? y) eqn:E; [ | reflexivity ].
  rewrite (ltb_trans _ _ _ E Hym) in Hxm. discriminate.
Qed.

(** The running maximum never falls below a value it has passed. *)
Lemma runMax_keeps (l : list PricePoint) :
  forall m x, (m <? x) = false -> (runMax m l <? x) = false.
Proof.
  induction l as [|cur l IH]; intros m x Hx; simpl.
  - exact Hx.
  - apply IH. unfold gt. destruct (m <? pl cur) eqn:E.
    + exact (ltb_false_trans_l _ _ _ E Hx).
    + exact Hx.
Qed.

Lemma runMax_upper (l : list PricePoint) :
  forall m pt, In pt l -> gt (pl pt) (runMax m l) = false.
Proof.
  induction l as [|cur l IH]; intros m pt Hin; simpl in *.
  - contradiction.
  - destruct Hin as [-> | Hin].
    + unfold gt. apply runMax_keeps. destruct (m <? pl pt) eqn:E.
      * apply ltb_irrefl.
      * exact E.
    + apply IH. exact Hin.
Qed.

Lemma runMax_attained (l : list PricePoint) :
  forall m, runMax m l = m \/ exists pt, In pt l /\ runMax m l = pl pt.
Proof.
  induction l as [|cur l IH]; intros m; simpl.
  - left; reflexivity.
  - destruct (IH (if gt (pl cur) m then pl cur else m)) as [H | [pt [Hin H]]].
    + destruct (gt (pl cur) m).
      * right. exists cur. split; [ left; reflexivity | exact H ].
      * left. exact H.
    + right. exists pt. split; [ right; exact Hin | exact H ].
Qed.

Lemma runMin_keeps (l : list PricePoint) :
  forall m x, (x <? m) = false -> (x <? runMin m l) = false.
Proof.
  induction l as [|cur l IH]; intros m x Hx; simpl.
  - exact Hx.
  - apply IH. destruct (pl cur <? m) eqn:E.
    + exact (ltb_false_trans_r _ _ _ E Hx).
    + exact Hx.
Qed.

Lemma runMin_lower (l : list PricePoint) :
  forall m pt, In pt l -> (pl pt <? runMin m l) = false.
Proof.
  induction l as [|cur l IH]; intros m pt Hin; simpl in *.
  - contradiction.
  - destruct Hin as [-> | Hin].
    + apply runMin_keeps. destruct (pl pt <? m) eqn:E.
      * apply ltb_irrefl.
      * exact E.
    + apply IH. exact Hin.
Qed.

Lemma runMin_attained (l : list PricePoint) :
  forall m, runMin m l = m \/ exists pt, In pt l /\ runMin m l = pl pt.
Proof.
  induction l as [|cur l IH]; intros m; simpl.
  - left; reflexivity.
  - destruct (IH (if pl cur <? m then pl cur else m)) as [H | [pt [Hin H]]].
    + destruct (pl cur <? m).
      * right. exists cur. split; [ left; reflexivity | exact H ].
      * left. exact H.
    + right. exists pt. split; [ right; exact Hin | exact H ].
Qed.

(** A finite number lies strictly between the two infinities. *)
Lemma is_finite_between (x : float) :
  PrimFloat.is_finite x = true ->
  (neg_infinity <? x) = true /\ (x <? infinity) = true
  /\ strict_eq x infinity = false /\ strict_eq x neg_infinity = false.
Proof.
  unfold PrimFloat.is_finite, PrimFloat.is_nan, PrimFloat.is_infinity,
    strict_eq.
  rewrite !ltb_spec, !eqb_spec, abs_spec.
  change (Prim2SF infinity) with (S754_infinity false).
  change (Prim2SF neg_infinity) with (S754_infinity true).
  unfold SFltb, SFeqb.
  destruct (Prim2SF x) as [s|s| |s m e]; simpl;
    try (destruct s; simpl); try discriminate; intros _;
    repeat split; reflexivity.
Qed.

End ScanFacts.

(** C8, as stated, fails.  A long call bought at a premium of 1e307 has
    a P&L of -Infinity at each of the 101 grid prices.  The minimum found
    is -Infinity, which is not the +Infinity that [maxLoss] starts from,
    and it is reported as 'Unlimited'; the maximum is still the -Infinity
    that [maxProfit] starts from, and it is reported as the number
    -Infinity, which is not finite. *)
Lemma C8_unlimited_is_not_the_sentinel :
  exists m,
    analyzeStrategy (strategies.longCall 100 1e307 1767225600000)
      100 1767225600000 = Normal m
    /\ List.length (plData m) = 101%nat
    /\ maxLoss m = Unlimited
    /\ scan_maxLoss (scanLoop None (plData m) scanInit) = neg_infinity
    /\ scan_maxLoss scanInit = infinity
    /\ maxProfit m = Num neg_infinity
    /\ scan_maxProfit scanInit = neg_infinity
    /\ PrimFloat.is_finite neg_infinity = false.
Proof.
  eexists. split; [ vm_compute; reflexivity | ].
  vm_compute. repeat split.
Qed.

(** C8, amended.  Over the 101-point grid the scan ends with the running
    maximum [hi], which no scanned P&L exceeds, and the running minimum
    [lo], below which no scanned P&L lies; [hi] is a scanned P&L unless
    nothing rose above the initial -Infinity, and [lo] likewise for
    +Infinity.  maxProfit is 'Unlimited' exactly when [hi] is +Infinity
    and maxLoss exactly when [lo] is -Infinity (the infinity opposite to
    the initial value), otherwise the extreme rounded to 2 decimals.
    When every scanned P&L is finite, neither is 'Unlimited': both are
    scanned P&L values, rounded. *)
Theorem C8_scan_extremes :
  forall (positions : list Position) (spotPrice : float) (expiry : Date),
    exists m,
      analyzeStrategy positions spotPrice expiry = Normal m
      /\ List.length (plData m) = 101%nat
      /\ let hi := runMax neg_infinity (plData m) in
         let lo := runMin infinity (plData m) in
         (forall pt, In pt (plData m) ->
            gt (pl pt) hi = false /\ (pl pt <? lo) = false)
         /\ (hi = neg_infinity
             \/ exists pt, In pt (plData m) /\ hi = pl pt)
         /\ (lo = infinity \/ exists pt, In pt (plData m) /\ lo = pl pt)
         /\ maxProfit m
            = (if strict_eq hi infinity then Unlimited
               else Num (round2 hi))
         /\ maxLoss m
            = (if strict_eq lo neg_infinity then Unlimited
               else Num (round2 lo))
         /\ ((forall pt, In pt (plData m) ->
                PrimFloat.is_finite (pl pt) = true) ->
             (exists pt, In pt (plData m) /\ hi = pl pt)
             /\ (exists pt, In pt (plData m) /\ lo = pl pt)
             /\ maxProfit m = Num (round2 hi)
             /\ maxLoss m = Num (round2 lo)).
Proof.
  intros positions spotPrice expiry.
  unfold analyzeStrategy.
  destruct (generatePriceRange_returns spotPrice 0.3 100) as [grid Hgrid].
  pose proof (generatePriceRange_length _ _ _ _ Hgrid) as Hlen.
  rewrite Hgrid. cbn [bind].
  destruct (calculateStrategyPL_returns positions grid expiry)
    as [curve Hcurve].
  assert (Hclen : List.length curve = 101%nat).
  { rewrite (calculateStrategyPL_length _ _ _ _ Hcurve). exact Hlen. }
  rewrite Hcurve. cbn [bind].
  set (st := scanLoop None curve scanInit).
  exists (mkStrategyMetrics
            (if strict_eq (scan_maxProfit st) infinity then Unlimited
             else Num (Math_round (scan_maxProfit st * 100) / 100))
            (if strict_eq (scan_maxLoss st) neg_infinity then Unlimited
             else Num (Math_round (scan_maxLoss st * 100) / 100))
            (map (fun p => Math_round (p * 100) / 100)
               (scan_breakevenPoints st))
            (Math_round
               (fold_left
                  (fun sum pos =>
                     if String.eqb (type pos) "option"
                     then sum + premium pos * quantity pos * 100
                     else sum) positions 0 * 100) / 100)
            curve).
  cbn [plData maxProfit maxLoss].
  assert (Hhi : scan_maxProfit st = runMax neg_infinity curve)
    by apply ScanFacts.scanLoop_maxProfit.
  assert (Hlo : scan_maxLoss st = runMin infinity curve)
    by apply ScanFacts.scanLoop_maxLoss.
  split; [ reflexivity | ].
  split; [ exact Hclen | ].
  cbv zeta. rewrite <- Hhi, <- Hlo.
  split.
  { intros pt Hin. rewrite Hhi, Hlo. split.
    - apply ScanFacts.runMax_upper; exact Hin.
    - apply ScanFacts.runMin_lower; exact Hin. }
  split; [ rewrite Hhi; apply ScanFacts.runMax_attained | ].
  split; [ rewrite Hlo; apply ScanFacts.runMin_attained | ].
  split; [ reflexivity | ].
  split; [ reflexivity | ].
  intros Hfin.
  destruct curve as [|pt0 curve']; [ discriminate | ].
  assert (Hin0 : In pt0 (pt0 :: curve')) by (left; reflexivity).
  assert (Hhi_att : exists pt, In pt (pt0 :: curve')
                               /\ scan_maxProfit st = pl pt).
  { rewrite Hhi.
    destruct (ScanFacts.runMax_attained (pt0 :: curve') neg_infinity)
      as [E | H]; [ | exact H ].
    pose proof (ScanFacts.runMax_upper (pt0 :: curve') neg_infinity pt0 Hin0)
      as Hup.
    unfold gt in Hup. rewrite E in Hup.
    destruct (ScanFacts.is_finite_between _ (Hfin pt0 Hin0)) as [Hlt _].
    congruence. }
  assert (Hlo_att : exists pt, In pt (pt0 :: curve')
                               /\ scan_maxLoss st = pl pt).
  { rewrite Hlo.
    destruct (ScanFacts.runMin_attained (pt0 :: curve') infinity)
      as [E | H]; [ | exact H ].
    pose proof (ScanFacts.runMin_lower (pt0 :: curve') infinity pt0 Hin0)
      as Hlow.
    rewrite E in Hlow.
    destruct (ScanFacts.is_finite_between _ (Hfin pt0 Hin0)) as [_ [Hlt _]].
    congruence. }
  split; [ exact Hhi_att | ]. split; [ exact Hlo_att | ].
  destruct Hhi_att as [p1 [Hin1 E1]].
  destruct Hlo_att as [p2 [Hin2 E2]].
  rewrite E1, E2.
  destruct (ScanFacts.is_finite_between _ (Hfin p1 Hin1)) as [_ [_ [-> _]]].
  destruct (ScanFacts.is_finite_between _ (Hfin p2 Hin2)) as [_ [_ [_ ->]]].
  split; reflexivity.
Qed.

Lemma C8_scan_extremes_witness :
  exists m,
    analyzeStrategy (strategies.bullCallSpread 100 5 110 2 1767225600000)
      105 1767225600000 = Normal m
    /\ (forall pt, In pt (plData m) -> PrimFloat.is_finite (pl pt) = true)
    /\ maxProfit m = Num (round2 (runMax neg_infinity (plData m)))
    /\ maxLoss m = Num (round2 (runMin infinity (plData m))).
Proof.
  destruct (C8_scan_extremes
              (strategies.bullCallSpread 100 5 110 2 1767225600000)
              105 1767225600000)
    as [m [Hm [Hlen H]]].
  cbv zeta in H. destruct H as [_ [_ [_ [_ [_ Hfin]]]]].
  assert (Hall : forall pt, In pt (plData m) ->
                   PrimFloat.is_finite (pl pt) = true).
  { assert (E : forallb (fun pt => PrimFloat.is_finite (pl pt)) (plData m)
                = true).
    { vm_compute in Hm. injection Hm as <-. vm_compute. reflexivity. }
    apply forallb_forall. exact E. }
  exists m. split; [ exact Hm | ]. split; [ exact Hall | ].
  destruct (Hfin Hall) as [_ [_ [Hp Hl]]]. split; assumption.
Defined.

(** ** C7: how the solver stops *)

Section SolverFacts.

Context {host : HostMath}.

Lemma ivLoop_unfold (p : IVParams) (n : nat) (sigma : float) :
  ivLoop p (S n) sigma
  = if converged p sigma then Normal (Returned (round4 sigma))
    else if vegaIsZero p sigma then Normal (Fell sigma)
         else ivLoop p n (newtonStep p sigma).
Proof.
  unfold converged, vegaIsZero, newtonStep, priceDiffAt, vegaAt. simpl.
  destruct (greeksAt_returns p sigma) as [result ->]. reflexivity.
Qed.

(** The loop leaves at the first pass [k] whose volatility makes it
    stop, or after [n] passes. *)
Lemma ivLoop_run (p : IVParams) (n : nat) :
  forall sigma,
    exists k,
      (k <= n)%nat
      /\ (forall j, (j < k)%nat -> stops p (iterateFrom p sigma j) = false)
      /\ ((k < n)%nat -> stops p (iterateFrom p sigma k) = true)
      /\ (ivLoop p n sigma
            = Normal (Returned (round4 (iterateFrom p sigma k)))
          \/ ivLoop p n sigma = Normal (Fell (iterateFrom p sigma k))).
Proof.
  induction n as [|n IH]; intros sigma.
  - exists 0%nat. repeat split; try lia. right. reflexivity.
  - rewrite ivLoop_unfold.
    destruct (converged p sigma) eqn:Hc.
    { exists 0%nat. repeat split; try lia.
      - intros _. unfold stops. simpl. rewrite Hc. reflexivity.
      - left. reflexivity. }
    destruct (vegaIsZero p sigma) eqn:Hv.
    { exists 0%nat. repeat split; try lia.
      - intros _. unfold stops. simpl. rewrite Hc, Hv. reflexivity.
      - right. reflexivity. }
    destruct (IH (newtonStep p sigma)) as [k [Hk [Hbefore [Hat Hexit]]]].
    exists (S k).
    assert (Hshift : forall j,
               iterateFrom p sigma (S j)
               = iterateFrom p (newtonStep p sigma) j).
    { intros j. unfold iterateFrom. apply Nat.iter_succ_r. }
    repeat split.
    + lia.
    + intros [|j] Hj.
      * unfold stops. simpl. rewrite Hc, Hv. reflexivity.
      * rewrite Hshift. apply Hbefore. lia.
    + intros Hlt. rewrite Hshift. apply Hat. lia.
    + rewrite Hshift. exact Hexit.
Qed.

End SolverFacts.

(** C7: the solver returns, rounded to 4 decimals, the volatility of the
    first pass at which the price difference is below the tolerance or
    vega is exactly 0, and the volatility left after [maxIterations]
    passes when there is no such pass; it never completes abruptly. *)
Theorem C7_solver_stops :
  forall (host : HostMath) (p : IVParams),
    exists k,
      (k <= maxIterations p)%nat
      /\ calculateImpliedVolatility p = Normal (round4 (sigmaAt p k))
      /\ (forall j, (j < k)%nat ->
            converged p (sigmaAt p j) = false
            /\ vegaIsZero p (sigmaAt p j) = false)
      /\ ((k < maxIterations p)%nat ->
          converged p (sigmaAt p k) = true
          \/ vegaIsZero p (sigmaAt p k) = true)
      /\ ~ raises (calculateImpliedVolatility p).
Proof.
  intros host p.
  destruct (ivLoop_run p (maxIterations p) 0.2)
    as [k [Hk [Hbefore [Hat Hexit]]]].
  exists k.
  assert (Hres : calculateImpliedVolatility p
                 = Normal (round4 (sigmaAt p k))).
  { unfold calculateImpliedVolatility, sigmaAt.
    destruct Hexit as [-> | ->]; reflexivity. }
  split; [ exact Hk | ]. split; [ exact Hres | ]. split; [ | split ].
  - intros j Hj. apply orb_false_elim. apply (Hbefore j Hj).
  - intros Hlt. apply orb_true_iff. apply (Hat Hlt).
  - intros [e He]. congruence.
Qed.

(** The three ways out, on the host: a market price of 12 is matched at
    the third pass; with a market price of 0 the second pass has vega 0
    and the loop breaks at 0.01; with a market price of 1000 no pass
    stops (the first moves to 5, and a pass at 5 neither stops nor
    moves) and the volatility left after 100 passes, 5, is returned. *)
Example solver_three_exits :
  ivLoop (mkIVParams 12 100 100 1 0.05 "call" 100 0.0001) 100 0.2
  = Normal (Returned 0.2411)
  /\ calculateImpliedVolatility
       (mkIVParams 12 100 100 1 0.05 "call" 100 0.0001) = Normal 0.2411
  /\ ivLoop (mkIVParams 0 100 100 1 0.05 "call" 100 0.0001) 100 0.2
     = Normal (Fell 0.01)
  /\ calculateImpliedVolatility
       (mkIVParams 0 100 100 1 0.05 "call" 100 0.0001) = Normal 0.01
  /\ ivLoop (mkIVParams 1000 100 100 1 0.05 "call" 100 0.0001) 100 0.2
     = Normal (Fell 5)
  /\ stops (mkIVParams 1000 100 100 1 0.05 "call" 100 0.0001) 0.2 = false
  /\ newtonStep (mkIVParams 1000 100 100 1 0.05 "call" 100 0.0001) 0.2 = 5
  /\ stops (mkIVParams 1000 100 100 1 0.05 "call" 100 0.0001) 5 = false
  /\ newtonStep (mkIVParams 1000 100 100 1 0.05 "call" 100 0.0001) 5 = 5
  /\ calculateImpliedVolatility
       (mkIVParams 1000 100 100 1 0.05 "call" 100 0.0001) = Normal 5.
Proof. vm_compute. repeat split. Qed.

Lemma C7_solver_stops_witness :
  exists k,
    (k <= 100)%nat
    /\ calculateImpliedVolatility
         (mkIVParams 10.45 100 100 1 0.05 "call" 100 0.0001)
       = Normal (round4 (sigmaAt
                   (mkIVParams 10.45 100 100 1 0.05 "call" 100 0.0001) k)).
Proof.
  destruct (C7_solver_stops V8Math
              (mkIVParams 10.45 100 100 1 0.05 "call" 100 0.0001))
    as [k [Hk [Hres _]]].
  exists k. split; [ exact Hk | exact Hres ].
Defined.

(** ** C3: the guards after the Newton-Raphson update *)

Lemma newtonUpdate_range (sigma priceDiff vega : float) :
  PrimFloat.is_nan (newtonUpdate sigma priceDiff vega) = true
  \/ ((0 <? newtonUpdate sigma priceDiff vega) = true
      /\ (newtonUpdate sigma priceDiff vega <=? 5) = true).
Proof.
  unfold newtonUpdate, gt.
  set (s := sigma - priceDiff / vega).
  destruct (s <=? 0) eqn:Hle.
  - right. vm_compute. split; reflexivity.
  - destruct (5 <? s) eqn:Hgt.
    + right. vm_compute. split; reflexivity.
    + destruct (PrimFloat.is_nan s) eqn:Hnan; [ left; reflexivity | ].
      right. split.
      * apply leb_false_ltb; [ exact Hnan | reflexivity | exact Hle ].
      * apply ltb_false_leb; [ exact Hnan | reflexivity | exact Hgt ].
Qed.

(** C3, as stated, fails.  For a call with S = K = 100, T = 1, r = 0.05
    and a market price of 0 the first update gives a negative volatility,
    which is replaced by 0.01 itself; for a market price of 3 it gives
    0.0039..., which no guard touches.  Neither pass stops the loop, so
    both values are passed to the kernel on the next pass, and neither
    lies in (0.01, 5]. *)
Lemma C3_sigma_leaves_clamp_range :
  ivLoop (mkIVParams 0 100 100 1 0.05 "call" 100 0.0001) 1 0.2
  = Normal (Fell 0.01)
  /\ stops (mkIVParams 0 100 100 1 0.05 "call" 100 0.0001) 0.2 = false
  /\ inClampRange 0.01 = false
  /\ ivLoop (mkIVParams 3 100 100 1 0.05 "call" 100 0.0001) 1 0.2
     = Normal (Fell (sigmaAt
                 (mkIVParams 3 100 100 1 0.05 "call" 100 0.0001) 1))
  /\ stops (mkIVParams 3 100 100 1 0.05 "call" 100 0.0001) 0.2 = false
  /\ (sigmaAt (mkIVParams 3 100 100 1 0.05 "call" 100 0.0001) 1 <? 0.004)
     = true
  /\ inClampRange
       (sigmaAt (mkIVParams 3 100 100 1 0.05 "call" 100 0.0001) 1) = false.
Proof. vm_compute. repeat split. Qed.

(** C3, amended: after every update a volatility that is [<= 0] is
    replaced by 0.01 and one that is [> 5] by 5, and nothing else is
    changed; so every volatility after the first is NaN or lies in
    (0, 5] (values at or below 0.01 included). *)
Theorem C3_sigma_after_update :
  forall (host : HostMath) (p : IVParams) (sigma priceDiff vega : float)
         (k : nat),
    ((sigma - priceDiff / vega <=? 0) = true ->
     newtonUpdate sigma priceDiff vega = 0.01)
    /\ ((sigma - priceDiff / vega <=? 0) = false ->
        gt (sigma - priceDiff / vega) 5 = true ->
        newtonUpdate sigma priceDiff vega = 5)
    /\ ((sigma - priceDiff / vega <=? 0) = false ->
        gt (sigma - priceDiff / vega) 5 = false ->
        newtonUpdate sigma priceDiff vega = sigma - priceDiff / vega)
    /\ (PrimFloat.is_nan (newtonUpdate sigma priceDiff vega) = true
        \/ ((0 <? newtonUpdate sigma priceDiff vega) = true
            /\ (newtonUpdate sigma priceDiff vega <=? 5) = true))
    /\ (PrimFloat.is_nan (sigmaAt p (S k)) = true
        \/ ((0 <? sigmaAt p (S k)) = true
            /\ (sigmaAt p (S k) <=? 5) = true)).
Proof.
  intros host p sigma priceDiff vega k.
  split; [ | split; [ | split; [ | split ] ] ].
  - intros H. unfold newtonUpdate. rewrite H. reflexivity.
  - intros H1 H2. unfold newtonUpdate. rewrite H1, H2. reflexivity.
  - intros H1 H2. unfold newtonUpdate. rewrite H1, H2. reflexivity.
  - apply newtonUpdate_range.
  - unfold sigmaAt, iterateFrom. simpl. unfold newtonStep at 1.
    apply newtonUpdate_range.
Qed.

Lemma C3_sigma_after_update_witness :
  (0.2 - 10.45 / 38 <=? 0) = true
  /\ newtonUpdate 0.2 10.45 38 = 0.01.
Proof.
  split; [ reflexivity | ].
  exact (proj1 (C3_sigma_after_update V8Math
                  (mkIVParams 0 100 100 1 0.05 "call" 100 0.0001)
                  0.2 10.45 38 0) eq_refl).
Defined.

(** ** C10: symmetry of the normal CDF approximation *)

Module Sign.




End Sign.


(** On the host's grid 0.01, 0.02, ..., 8.00 the two values do sum to
    exactly 1. *)
Example normalCDF_sum_on_grid :
  forallb
    (fun k => let x := of_nat k / 100 in normalCDF x + normalCDF (- x) =? 1)
    (seq 1 800) = true.
Proof. vm_compute. reflexivity. Qed.



(** ** Put-call parity on sample inputs

    Parity is an approximate relation between rounded doubles, stated
    by the specification without a tolerance; it is evaluated here, not
    proved.  On the grid the two sides differ by at most 0.01.  Where
    [d1 = 0] the two calls of [normalCDF] do not sum to 1, and with a
    spot and strike of 1e9 the two sides differ by almost 1. *)
Example parity_on_sample_grid :
  List.length parityGrid = 384%nat
  /\ forallb
       (fun '(spot, strike, maturity, rate, vol) =>
          parityGap spot strike maturity rate vol <=? 0.01)
       parityGrid = true.
Proof. vm_compute. split; reflexivity. Qed.

Example parity_gap_at_zero_d1 :
  fst (calculateD1D2 1e9 1e9 1 (-0.125) 0.5) = 0
  /\ (0.99 <? parityGap 1e9 1e9 1 (-0.125) 0.5) = true.
Proof. vm_compute. split; reflexivity. Qed.

(** ** Signs of products and differences of binary64 numbers *)

Module FloatSign.

Lemma binary_round_aux_opp (s : bool) (m e : Z) (l : location) :
  binary_round_aux prec emax (negb s) m e l
  = SFopp (binary_round_aux prec emax s m e l).
Proof.
  unfold binary_round_aux.
  destruct (shr_fexp prec emax m e l) as [mrs' e'].
  destruct (shr_fexp prec emax _ e' loc_Exact) as [mrs'' e''].
  destruct (shr_m mrs''); try reflexivity.
  destruct (e'' <=? emax - prec)%Z; reflexivity.
Qed.

Lemma SFmul_opp_l (x y : spec_float) :
  SFmul prec emax (SFopp x) y = SFopp (SFmul prec emax x y).
Proof.
  destruct x as [sx|sx| |sx mx ex], y as [sy|sy| |sy my ey]; simpl;
    try reflexivity;
    try (destruct sx, sy; reflexivity).
  rewrite <- binary_round_aux_opp. destruct sx, sy; reflexivity.
Qed.

Lemma SFmul_opp_r (x y : spec_float) :
  SFmul prec emax x (SFopp y) = SFopp (SFmul prec emax x y).
Proof.
  destruct x as [sx|sx| |sx mx ex], y as [sy|sy| |sy my ey]; simpl;
    try reflexivity;
    try (destruct sx, sy; reflexivity).
  rewrite <- binary_round_aux_opp. destruct sx, sy; reflexivity.
Qed.

Lemma mul_opp_l (x y : float) : (- x) * y = - (x * y).
Proof.
  apply Prim2SF_inj.
  rewrite mul_spec, !opp_spec, mul_spec. apply SFmul_opp_l.
Qed.

Lemma mul_opp_r (x y : float) : x * (- y) = - (x * y).
Proof.
  apply Prim2SF_inj.
  rewrite mul_spec, !opp_spec, mul_spec. apply SFmul_opp_r.
Qed.

Lemma opp_involutive (x : float) : - (- x) = x.
Proof.
  apply Prim2SF_inj. rewrite !opp_spec.
  destruct (Prim2SF x) as [s|s| |s m e]; simpl;
    rewrite ?negb_involutive; reflexivity.
Qed.

Lemma mul_opp_opp (x y : float) : (- x) * (- y) = x * y.
Proof. rewrite mul_opp_l, mul_opp_r. apply opp_involutive. Qed.

End FloatSign.

(** ** The sign of a difference *)

Module FloatSub.

Local Open Scope Z_scope.

Lemma digits2_pos_bounds (m : positive) :
  2 ^ (Zpos (digits2_pos m) - 1) <= Zpos m < 2 ^ Zpos (digits2_pos m).
Proof.
  induction m as [p IH|p IH|]; simpl digits2_pos.
  - rewrite Pos2Z.inj_succ.
    replace (Z.succ (Zpos (digits2_pos p)) - 1)
      with (Z.succ (Zpos (digits2_pos p) - 1)) by lia.
    rewrite !Z.pow_succ_r by lia. lia.
  - rewrite Pos2Z.inj_succ.
    replace (Z.succ (Zpos (digits2_pos p)) - 1)
      with (Z.succ (Zpos (digits2_pos p) - 1)) by lia.
    rewrite !Z.pow_succ_r by lia. lia.
  - simpl. lia.
Qed.

(** A valid mantissa has at most 53 bits, and exactly 53 above the
    smallest exponent. *)
Lemma bounded_digits (m : positive) (e : Z) :
  bounded prec emax m e = true ->
  -1074 <= e
  /\ Zpos (digits2_pos m) <= 53
  /\ (-1074 < e -> Zpos (digits2_pos m) = 53).
Proof.
  unfold bounded, canonical_mantissa, fexp, SpecFloat.emin, prec, emax.
  intros H. apply andb_prop in H. destruct H as [H _].
  apply Z.eqb_eq in H. lia.
Qed.

Lemma shl_align_value (m : positive) (e ez : Z) :
  ez <= e ->
  Zpos (fst (shl_align m e ez)) = Zpos m * 2 ^ (e - ez).
Proof.
  intros Hle. unfold shl_align.
  destruct (ez - e) as [|d|d] eqn:E.
  - replace (e - ez) with 0 by lia. simpl. lia.
  - lia.
  - simpl fst.
    change (Pos.iter xO m d) with (shift_pos d m).
    rewrite shift_pos_correct, Zpower_pos_nat, Zpower_nat_Z.
    rewrite positive_nat_Z.
    replace (e - ez) with (Zpos d) by lia. lia.
Qed.

Lemma aligned_le (m1 : positive) (e1 : Z) (m2 : positive) (e2 : Z) :
  bounded prec emax m1 e1 = true ->
  bounded prec emax m2 e2 = true ->
  lexle m1 e1 m2 e2 ->
  Zpos (fst (shl_align m1 e1 (Z.min e1 e2)))
  <= Zpos (fst (shl_align m2 e2 (Z.min e1 e2))).
Proof.
  intros B1 B2 H.
  rewrite !shl_align_value by lia.
  destruct H as [Hlt | [-> Hm]].
  - rewrite Z.min_l by lia. rewrite Z.sub_diag. simpl (2 ^ 0).
    destruct (bounded_digits _ _ B1) as [He1 [Hd1 _]].
    destruct (bounded_digits _ _ B2) as [_ [_ Hd2]].
    specialize (Hd2 ltac:(lia)).
    pose proof (digits2_pos_bounds m1) as [_ Hm1].
    pose proof (digits2_pos_bounds m2) as [Hm2 _].
    rewrite Hd2 in Hm2.
    assert (Hp1 : 2 ^ Zpos (digits2_pos m1) <= 2 ^ 53)
      by (apply Z.pow_le_mono_r; lia).
    assert (Hp2 : 2 ^ 1 <= 2 ^ (e2 - e1))
      by (apply Z.pow_le_mono_r; lia).
    change (2 ^ 1) with 2 in Hp2.
    change (2 ^ (53 - 1)) with 4503599627370496 in Hm2.
    change (2 ^ 53) with 9007199254740992 in Hp1.
    nia.
  - rewrite Z.min_id, Z.sub_diag. simpl (2 ^ 0). lia.
Qed.

(** Shifting and rounding keep a non-negative mantissa non-negative, so
    rounding returns a number of the sign it was given. *)
Lemma iter_pos_invariant {A : Type} (P : A -> Prop) (f : A -> A) :
  (forall a, P a -> P (f a)) ->
  forall n a, P a -> P (iter_pos f n a).
Proof.
  intros Hf. induction n as [n IH|n IH|]; intros a Ha; simpl.
  - apply IH, IH, Hf, Ha.
  - apply IH, IH, Ha.
  - apply Hf, Ha.
Qed.

Lemma shr_1_nonneg (mrs : shr_record) :
  0 <= shr_m mrs -> 0 <= shr_m (shr_1 mrs).
Proof.
  destruct mrs as [m r s]. simpl.
  destruct m as [|p|p]; [ | destruct p | destruct p ]; simpl; lia.
Qed.

Lemma shr_fexp_nonneg (m e : Z) (l : location) :
  0 <= m -> 0 <= shr_m (fst (shr_fexp prec emax m e l)).
Proof.
  intros Hm. unfold shr_fexp, shr.
  assert (H0 : 0 <= shr_m (shr_record_of_loc m l))
    by (destruct l as [|[]]; exact Hm).
  destruct (fexp prec emax (Zdigits2 m + e) - e); simpl fst; try exact H0.
  apply (iter_pos_invariant (fun mrs => 0 <= shr_m mrs));
    [ exact shr_1_nonneg | exact H0 ].
Qed.

Lemma round_nearest_even_nonneg (m : Z) (l : location) :
  0 <= m -> 0 <= round_nearest_even m l.
Proof.
  intros Hm. destruct l as [|[]]; simpl; try lia.
  destruct (Z.even m); lia.
Qed.

Lemma binary_round_aux_signed (s : bool) (m e : Z) (l : location) :
  0 <= m -> signed s (binary_round_aux prec emax s m e l).
Proof.
  intros Hm. unfold binary_round_aux.
  pose proof (shr_fexp_nonneg m e l Hm) as H1.
  destruct (shr_fexp prec emax m e l) as [mrs' e']. simpl fst in H1.
  pose proof (shr_fexp_nonneg _ e' loc_Exact
                (round_nearest_even_nonneg _ (loc_of_shr_record mrs') H1))
    as H2.
  destruct (shr_fexp prec emax _ e' loc_Exact) as [mrs'' e''].
  simpl fst in H2.
  destruct (shr_m mrs'') as [|p|p]; try lia.
  - reflexivity.
  - destruct (e'' <=? emax - prec); reflexivity.
Qed.

Lemma binary_round_signed (s : bool) (m : positive) (e : Z) :
  signed s (binary_round prec emax s m e).
Proof.
  unfold binary_round.
  destruct (shl_align m e _) as [mz ez].
  apply binary_round_aux_signed. lia.
Qed.

Lemma binary_normalize_nonpos (z e : Z) :
  z <= 0 -> nonpos (binary_normalize prec emax z e false).
Proof.
  intros Hz. destruct z as [|p|p]; simpl; try exact I; try lia.
  pose proof (binary_round_signed true p e) as H.
  destruct (binary_round prec emax true p e) as [s|s| |s m' e'];
    simpl in *; subst; try exact I; contradiction.
Qed.

Lemma SFsub_nonpos (x y : spec_float) :
  valid_binary x = true -> valid_binary y = true ->
  finite_or_zero x -> finite_or_zero y ->
  SFleb x y = true ->
  nonpos (SF64sub x y).
Proof.
  intros Vx Vy Fx Fy. unfold SFleb, SF64sub.
  destruct x as [sx|sx| |sx mx ex], y as [sy|sy| |sy my ey];
    simpl in Fx, Fy; try contradiction; simpl SFcompare.
  - intros _. destruct sx, sy; exact I.
  - destruct sy; simpl; [ discriminate | intros _; exact I ].
  - destruct sx; simpl; [ intros _; exact I | discriminate ].
  - simpl in Vx, Vy. intros H. unfold SFsub.
    apply binary_normalize_nonpos.
    change (Pos.compare_cont Eq) with Pos.compare in H.
    destruct sx, sy; simpl cond_Zopp; try discriminate; try lia.
    + assert (L : lexle my ey mx ex).
      { unfold lexle.
        destruct (Z.compare_spec ex ey); try discriminate; try lia.
        subst. right. split; [ reflexivity | ].
        destruct (Pos.compare_spec mx my); simpl in H;
          try discriminate; subst; lia. }
      pose proof (aligned_le _ _ _ _ Vy Vx L) as A.
      rewrite (Z.min_comm ey ex) in A. lia.
    + assert (L : lexle mx ex my ey).
      { unfold lexle.
        destruct (Z.compare_spec ex ey); try discriminate; try lia.
        subst. right. split; [ reflexivity | ].
        destruct (Pos.compare_spec mx my); simpl in H;
          try discriminate; subst; lia. }
      pose proof (aligned_le _ _ _ _ Vx Vy L) as A. lia.
Qed.

(** The same when only one of the two is finite. *)
Lemma SFsub_nonpos_one_finite (x y : spec_float) :
  valid_binary x = true -> valid_binary y = true ->
  finite_or_zero x \/ finite_or_zero y ->
  SFleb x y = true ->
  nonpos (SF64sub x y).
Proof.
  intros Vx Vy F H.
  destruct x as [sx|sx| |sx mx ex] eqn:Ex, y as [sy|sy| |sy my ey] eqn:Ey;
    try (apply SFsub_nonpos; [ exact Vx | exact Vy | exact I | exact I
                             | exact H ]);
    unfold SFleb in H; simpl in H, F |- *;
    try discriminate;
    try (destruct F; contradiction);
    try (destruct sx); try (destruct sy);
    simpl in H |- *; try discriminate; exact I.
Qed.

Lemma binary_normalize_nonneg (z e : Z) :
  0 <= z -> signed false (binary_normalize prec emax z e false).
Proof.
  intros Hz. destruct z as [|p|p]; simpl; try reflexivity; try lia.
  apply binary_round_signed.
Qed.

(** The difference [x - y] for [y < x], one of them finite: a number
    with the sign bit clear. *)
Lemma SFsub_nonneg (x y : spec_float) :
  valid_binary x = true -> valid_binary y = true ->
  finite_or_zero x \/ finite_or_zero y ->
  SFltb y x = true ->
  signed false (SF64sub x y).
Proof.
  intros Vx Vy F. unfold SFltb, SF64sub.
  destruct x as [sx|sx| |sx mx ex], y as [sy|sy| |sy my ey];
    simpl SFcompare; simpl in F;
    try (intros H; discriminate H);
    try (destruct F; contradiction).
  all: try solve [ try destruct sx; try destruct sy; simpl;
                   try discriminate; intros _; reflexivity ].
  - simpl in Vx, Vy. intros H. unfold SFsub.
    apply binary_normalize_nonneg.
    change (Pos.compare_cont Eq) with Pos.compare in H.
    destruct sx, sy; simpl cond_Zopp; try discriminate; try lia.
    + assert (L : lexle mx ex my ey).
      { unfold lexle.
        destruct (Z.compare_spec ey ex); try discriminate; try lia.
        subst. right. split; [ reflexivity | ].
        destruct (Pos.compare_spec my mx); simpl in H;
          try discriminate; subst; lia. }
      pose proof (aligned_le _ _ _ _ Vx Vy L) as A. lia.
    + assert (L : lexle my ey mx ex).
      { unfold lexle.
        destruct (Z.compare_spec ey ex); try discriminate; try lia.
        subst. right. split; [ reflexivity | ].
        destruct (Pos.compare_spec my mx); simpl in H;
          try discriminate; subst; lia. }
      pose proof (aligned_le _ _ _ _ Vy Vx L) as A.
      rewrite (Z.min_comm ey ex) in A. lia.
Qed.

Local Close Scope Z_scope.

Lemma is_finite_SF (x : float) :
  PrimFloat.is_finite x = true -> finite_or_zero (Prim2SF x).
Proof.
  unfold PrimFloat.is_finite, PrimFloat.is_nan, PrimFloat.is_infinity.
  rewrite !eqb_spec, abs_spec.
  change (Prim2SF infinity) with (S754_infinity false).
  unfold SFeqb.
  destruct (Prim2SF x) as [s|s| |s m e]; simpl;
    try (destruct s; simpl); try discriminate; intros _; exact I.
Qed.

(** [Math.max(0, r)] is 0 for every [r] that is zero or negative. *)
Lemma Math_max_zero_nonpos (r : float) :
  nonpos (Prim2SF r) -> Math_max 0 r = 0.
Proof.
  intros H. unfold Math_max.
  assert (Hnan : PrimFloat.is_nan r = false).
  { destruct (PrimFloat.is_nan r) eqn:E; [ | reflexivity ].
    apply is_nan_spec in E. rewrite E in H. contradiction. }
  assert (Hlt : (0 <? r) = false).
  { rewrite ltb_spec. change (Prim2SF 0) with (S754_zero false).
    destruct (Prim2SF r) as [s|s| |s m e]; simpl in *;
      try (destruct s); try contradiction; reflexivity. }
  rewrite Hnan, Hlt. simpl.
  destruct (r <? 0); reflexivity.
Qed.

(** For finite [x <= y], [Math.max(0, x - y)] is 0. *)
Lemma Math_max_zero_sub (x y : float) :
  PrimFloat.is_finite x = true -> PrimFloat.is_finite y = true ->
  (x <=? y) = true -> Math_max 0 (x - y) = 0.
Proof.
  intros Fx Fy Hle. apply Math_max_zero_nonpos.
  rewrite sub_spec. apply SFsub_nonpos.
  - apply Prim2SF_valid.
  - apply Prim2SF_valid.
  - apply is_finite_SF, Fx.
  - apply is_finite_SF, Fy.
  - rewrite <- leb_spec. exact Hle.
Qed.

(** For [x <= y] of which one at least is finite, [Math.max(0, x - y)]
    is 0. *)
Lemma Math_max_zero_sub_one_finite (x y : float) :
  PrimFloat.is_finite x = true \/ PrimFloat.is_finite y = true ->
  (x <=? y) = true -> Math_max 0 (x - y) = 0.
Proof.
  intros F Hle. apply Math_max_zero_nonpos.
  rewrite sub_spec. apply SFsub_nonpos_one_finite.
  - apply Prim2SF_valid.
  - apply Prim2SF_valid.
  - destruct F as [F|F]; [ left | right ]; apply is_finite_SF, F.
  - rewrite <- leb_spec. exact Hle.
Qed.

(** [Math.max(0, r)] is [r] for every [r] with the sign bit clear. *)
Lemma Math_max_zero_signed (r : float) :
  signed false (Prim2SF r) -> Math_max 0 r = r.
Proof.
  intros H. unfold Math_max.
  assert (Hnan : PrimFloat.is_nan r = false).
  { destruct (PrimFloat.is_nan r) eqn:E; [ | reflexivity ].
    apply is_nan_spec in E. rewrite E in H. contradiction. }
  rewrite Hnan. cbn [PrimFloat.is_nan orb].
  change (PrimFloat.is_nan 0) with false. cbn [orb].
  destruct (0 <? r) eqn:Hpos; [ reflexivity | ].
  assert (Hzero : Prim2SF r = S754_zero false).
  { rewrite ltb_spec in Hpos. change (Prim2SF 0) with (S754_zero false) in Hpos.
    destruct (Prim2SF r) as [s|s| |s m e]; simpl in H, Hpos;
      subst; try discriminate; try contradiction; reflexivity. }
  assert (Er : r = 0).
  { apply Prim2SF_inj. rewrite Hzero. reflexivity. }
  subst r. reflexivity.
Qed.

(** For [y < x] of which one at least is finite, [Math.max(0, x - y)] is
    [x - y]. *)
Lemma Math_max_zero_sub_positive (x y : float) :
  PrimFloat.is_finite x = true \/ PrimFloat.is_finite y = true ->
  (y <? x) = true -> Math_max 0 (x - y) = x - y.
Proof.
  intros F Hlt. apply Math_max_zero_signed.
  rewrite sub_spec. apply SFsub_nonneg.
  - apply Prim2SF_valid.
  - apply Prim2SF_valid.
  - destruct F as [F|F]; [ left | right ]; apply is_finite_SF, F.
  - rewrite <- ltb_spec. exact Hlt.
Qed.

End FloatSub.

(** ** Breakeven points *)

Module Breakeven.

Lemma scanStep_breakeven (prev : option PricePoint) (cur : PricePoint)
    (st : ScanState) :
  scan_breakevenPoints (scanStep prev cur st)
  = scan_breakevenPoints st
    ++ match prev with
       | Some p => if crosses (pl p) (pl cur) then [price cur] else []
       | None => []
       end.
Proof.
  unfold scanStep, crosses; simpl. destruct prev as [p|].
  - destruct (_ || _); [ reflexivity | symmetry; apply app_nil_r ].
  - symmetry; apply app_nil_r.
Qed.

(** The loop, entered with a previous point [p], appends the crossing
    prices of [p :: rest]. *)
Lemma scanLoop_breakeven (rest : list PricePoint) :
  forall (p : PricePoint) (st : ScanState),
    scan_breakevenPoints (scanLoop (Some p) rest st)
    = scan_breakevenPoints st ++ crossingPrices (p :: rest).
Proof.
  induction rest as [|cur rest IH]; intros p st.
  - simpl. symmetry; apply app_nil_r.
  - simpl scanLoop. rewrite IH, scanStep_breakeven, <- app_assoc.
    f_equal. unfold crossingPrices.
    replace (List.length (p :: cur :: rest) - 1)%nat
      with (S (List.length rest)) by (simpl; lia).
    replace (List.length (cur :: rest) - 1)%nat
      with (List.length rest) by (simpl; lia).
    change (seq 0 (S (List.length rest)))
      with (0%nat :: seq 1 (List.length rest)).
    rewrite <- seq_shift. cbn [filter nth].
    destruct (crosses (pl p) (pl cur)); cbn [map app nth];
      rewrite filter_map_swap, map_map; reflexivity.
Qed.

Lemma scanLoop_breakeven_start (curve : list PricePoint) :
  scan_breakevenPoints (scanLoop None curve scanInit)
  = crossingPrices curve.
Proof.
  destruct curve as [|p rest].
  - reflexivity.
  - simpl scanLoop. rewrite scanLoop_breakeven, scanStep_breakeven.
    reflexivity.
Qed.

Lemma crossingPrices_length (curve : list PricePoint) :
  (List.length (crossingPrices curve) <= List.length curve - 1)%nat.
Proof.
  unfold crossingPrices. rewrite length_map.
  etransitivity; [ apply filter_length_le | ].
  rewrite length_seq. reflexivity.
Qed.

Lemma filter_none {A : Type} (f : A -> bool) (l : list A) :
  (forall a, In a l -> f a = false) -> filter f l = [].
Proof.
  induction l as [|a l IH]; intros H; simpl.
  - reflexivity.
  - rewrite (H a) by (left; reflexivity).
    apply IH. intros b Hb. apply H. right. exact Hb.
Qed.

Lemma ltb_asym (x y : float) : (x <? y) = true -> (y <? x) = false.
Proof.
  intros H. destruct (y <? x) eqn:E; [ | reflexivity ].
  pose proof (ltb_trans _ _ _ H E) as C.
  rewrite ScanFacts.ltb_irrefl in C. discriminate.
Qed.

Lemma ltb_not_leb (x y : float) : (x <? y) = true -> (y <=? x) = false.
Proof.
  rewrite ltb_spec, leb_spec. unfold SFltb, SFleb.
  rewrite (SFcompare_antisym (Prim2SF x) (Prim2SF y)).
  destruct (SFcompare (Prim2SF x) (Prim2SF y)) as [[]|]; simpl;
    try discriminate; reflexivity.
Qed.

(** Two P&L values of the same strict sign do not cross. *)
Lemma crosses_same_sign (a b : float) :
  ((0 <? a) = true /\ (0 <? b) = true)
  \/ ((a <? 0) = true /\ (b <? 0) = true) ->
  crosses a b = false.
Proof.
  unfold crosses, gt, ge. intros [[Ha Hb] | [Ha Hb]].
  - rewrite (ltb_asym _ _ Ha), Ha, (ltb_not_leb _ _ Hb). reflexivity.
  - rewrite Ha, (ltb_not_leb _ _ Hb), (ltb_asym _ _ Ha). reflexivity.
Qed.

End Breakeven.

Lemma analyzeStrategy_curve (positions : list Position)
    (spotPrice : float) (expiry : Date) (m : StrategyMetrics) :
  analyzeStrategy positions spotPrice expiry = Normal m ->
  exists grid,
    generatePriceRange spotPrice 0.3 100 = Normal grid
    /\ calculateStrategyPL positions grid expiry = Normal (plData m)
    /\ List.length (plData m) = 101%nat.
Proof.
  intros Hm. unfold analyzeStrategy in Hm.
  destruct (generatePriceRange_returns spotPrice 0.3 100) as [grid Hgrid].
  pose proof (generatePriceRange_length _ _ _ _ Hgrid) as Hlen.
  rewrite Hgrid in Hm. cbn [bind] in Hm.
  destruct (calculateStrategyPL_returns positions grid expiry)
    as [curve Hcurve].
  pose proof (calculateStrategyPL_length _ _ _ _ Hcurve) as Hclen.
  rewrite Hcurve in Hm. cbn [bind] in Hm.
  injection Hm as <-. cbn [plData].
  exists grid. split; [ exact Hgrid | ]. split; [ exact Hcurve | ].
  rewrite Hclen. exact Hlen.
Qed.

Lemma analyzeStrategy_breakevenPoints (positions : list Position)
    (spotPrice : float) (expiry : Date) (m : StrategyMetrics) :
  analyzeStrategy positions spotPrice expiry = Normal m ->
  breakevenPoints m = map round2 (crossingPrices (plData m)).
Proof.
  intros Hm. unfold analyzeStrategy in Hm.
  destruct (generatePriceRange_returns spotPrice 0.3 100) as [grid Hgrid].
  rewrite Hgrid in Hm. cbn [bind] in Hm.
  destruct (calculateStrategyPL_returns positions grid expiry)
    as [curve Hcurve].
  rewrite Hcurve in Hm. cbn [bind] in Hm.
  injection Hm as <-. cbn [breakevenPoints plData].
  rewrite Breakeven.scanLoop_breakeven_start. reflexivity.
Qed.

(** X1: the breakeven points of an analysis are the grid prices, rounded
    to 2 decimals and in grid order, of exactly the points [i + 1] whose
    P&L and that of point [i] pass the sign test (negative then not
    negative, or positive then not positive); no price is interpolated,
    and there are at most 100 of them. *)
Theorem breakeven_points_are_grid_crossings :
  forall (positions : list Position) (spotPrice : float) (expiry : Date),
    exists m,
      analyzeStrategy positions spotPrice expiry = Normal m
      /\ breakevenPoints m
         = map (fun i => round2 (price (nth (S i) (plData m) noPoint)))
             (filter
                (fun i =>
                   crosses (pl (nth i (plData m) noPoint))
                           (pl (nth (S i) (plData m) noPoint)))
                (seq 0 100))
      /\ (List.length (breakevenPoints m) <= 100)%nat.
Proof.
  intros positions spotPrice expiry.
  destruct (analyzeStrategy_returns positions spotPrice expiry) as [m Hm].
  exists m. split; [ exact Hm | ].
  destruct (analyzeStrategy_curve _ _ _ _ Hm) as [grid [_ [_ Hlen]]].
  rewrite (analyzeStrategy_breakevenPoints _ _ _ _ Hm).
  assert (E : (List.length (plData m) - 1 = 100)%nat)
    by (rewrite Hlen; reflexivity).
  split.
  - unfold crossingPrices. rewrite E, map_map. reflexivity.
  - rewrite length_map.
    etransitivity; [ apply Breakeven.crossingPrices_length | ].
    rewrite E. reflexivity.
Qed.

(** X2: a curve whose P&L is strictly positive at every grid price, or
    strictly negative at every grid price, has no breakeven point. *)
Theorem no_breakeven_without_sign_change :
  forall (positions : list Position) (spotPrice : float) (expiry : Date)
         (m : StrategyMetrics),
    analyzeStrategy positions spotPrice expiry = Normal m ->
    (forall pt, In pt (plData m) -> (0 <? pl pt) = true)
    \/ (forall pt, In pt (plData m) -> (pl pt <? 0) = true) ->
    breakevenPoints m = [].
Proof.
  intros positions spotPrice expiry m Hm Hsign.
  rewrite (analyzeStrategy_breakevenPoints _ _ _ _ Hm).
  destruct (analyzeStrategy_curve _ _ _ _ Hm) as [grid [_ [_ Hlen]]].
  unfold crossingPrices.
  rewrite Breakeven.filter_none; [ reflexivity | ].
  intros i Hi. apply in_seq in Hi.
  apply Breakeven.crosses_same_sign.
  assert (H1 : In (nth i (plData m) noPoint) (plData m))
    by (apply nth_In; lia).
  assert (H2 : In (nth (S i) (plData m) noPoint) (plData m))
    by (apply nth_In; lia).
  destruct Hsign as [Hp | Hn]; [ left | right ]; split; auto.
Qed.

Lemma no_breakeven_without_sign_change_witness :
  exists m,
    analyzeStrategy (strategies.bullCallSpread 100 5 110 2 1767225600000)
      200 1767225600000 = Normal m
    /\ (forall pt, In pt (plData m) -> (0 <? pl pt) = true)
    /\ breakevenPoints m = [].
Proof.
  destruct (analyzeStrategy_returns
              (strategies.bullCallSpread 100 5 110 2 1767225600000)
              200 1767225600000) as [m Hm].
  assert (Hall : forall pt, In pt (plData m) -> (0 <? pl pt) = true).
  { assert (E : forallb (fun pt => 0 <? pl pt) (plData m) = true).
    { vm_compute in Hm. injection Hm as <-. vm_compute. reflexivity. }
    apply forallb_forall. exact E. }
  exists m. split; [ exact Hm | ]. split; [ exact Hall | ].
  exact (no_breakeven_without_sign_change _ _ _ m Hm (or_introl Hall)).
Defined.

(** ** The curve and the premium of a strategy *)

Module StrategyFacts.

Lemma calculatePositionPL_date (position : Position) (stockPrice : float)
    (date date' : Date) :
  calculatePositionPL position stockPrice date
  = calculatePositionPL position stockPrice date'.
Proof.
  unfold calculatePositionPL.
  destruct (String.eqb (type position) "stock"); [ reflexivity | ].
  cbv zeta.
  repeat match goal with
         | |- context [if ?c <=? 0 then _ else _] => destruct (c <=? 0)
         end; reflexivity.
Qed.

Lemma calculatePositionPL_withExpiry (expiry' : Date) (position : Position)
    (stockPrice : float) (date : Date) :
  calculatePositionPL (withExpiry expiry' position) stockPrice date
  = calculatePositionPL position stockPrice date.
Proof.
  unfold calculatePositionPL, withExpiry. cbn [type optionType strike
    premium quantity expiry].
  destruct (String.eqb (type position) "stock"); [ reflexivity | ].
  cbv zeta.
  repeat match goal with
         | |- context [if ?c <=? 0 then _ else _] => destruct (c <=? 0)
         end; reflexivity.
Qed.

(** The sum over the legs, for two valuations that agree on them. *)
Lemma totalPL_ext (f g : Position -> float) (positions : list Position) :
  (forall position, In position positions -> f position = g position) ->
  forall a,
    fold_left (fun sum position => sum + f position) positions a
    = fold_left (fun sum position => sum + g position) positions a.
Proof.
  induction positions as [|p l IH]; intros H a; simpl.
  - reflexivity.
  - rewrite (H p (or_introl eq_refl)). apply IH.
    intros q Hq. apply H. right. exact Hq.
Qed.

Lemma totalPL_map (f : Position -> float) (h : Position -> Position)
    (positions : list Position) :
  forall a,
    fold_left (fun sum position => sum + f position) (map h positions) a
    = fold_left (fun sum position => sum + f (h position)) positions a.
Proof.
  induction positions as [|p l IH]; intros a; simpl.
  - reflexivity.
  - apply IH.
Qed.

(** The premium sum reads only the option legs. *)
Lemma netPremium_filter (positions : list Position) :
  forall a,
    fold_left
      (fun sum pos =>
         if String.eqb (type pos) "option"
         then sum + premium pos * quantity pos * 100
         else sum)
      positions a
    = fold_left
        (fun sum pos =>
           if String.eqb (type pos) "option"
           then sum + premium pos * quantity pos * 100
           else sum)
        (filter isOptionLeg positions) a.
Proof.
  induction positions as [|p l IH]; intros a; simpl.
  - reflexivity.
  - unfold isOptionLeg at 1.
    destruct (String.eqb (type p) "option") eqn:E; simpl.
    + rewrite E. apply IH.
    + apply IH.
Qed.

Lemma netPremium_withExpiry (expiry' : Date) (positions : list Position) :
  forall a,
    fold_left
      (fun sum pos =>
         if String.eqb (type pos) "option"
         then sum + premium pos * quantity pos * 100
         else sum)
      (map (withExpiry expiry') positions) a
    = fold_left
        (fun sum pos =>
           if String.eqb (type pos) "option"
           then sum + premium pos * quantity pos * 100
           else sum)
        positions a.
Proof.
  induction positions as [|p l IH]; intros a; simpl.
  - reflexivity.
  - apply IH.
Qed.

Lemma analyzeStrategy_netPremium (positions : list Position)
    (spotPrice : float) (expiry : Date) (m : StrategyMetrics) :
  analyzeStrategy positions spotPrice expiry = Normal m ->
  netPremium m
  = round2
      (fold_left
         (fun sum pos =>
            if String.eqb (type pos) "option"
            then sum + premium pos * quantity pos * 100
            else sum)
         positions 0).
Proof.
  intros Hm. unfold analyzeStrategy in Hm.
  destruct (generatePriceRange_returns spotPrice 0.3 100) as [grid Hgrid].
  rewrite Hgrid in Hm. cbn [bind] in Hm.
  destruct (calculateStrategyPL_returns positions grid expiry)
    as [curve Hcurve].
  rewrite Hcurve in Hm. cbn [bind] in Hm.
  injection Hm as <-. reflexivity.
Qed.

(** A curve of zeros: the scan finds 0 on both sides. *)
Lemma runMax_zeros (l : list PricePoint) :
  (forall pt, In pt l -> pl pt = 0) ->
  runMax 0 l = 0.
Proof.
  unfold runMax. induction l as [|cur l IH]; intros H; simpl.
  - reflexivity.
  - rewrite (H cur (or_introl eq_refl)).
    change (gt 0 0) with false. cbv iota.
    apply IH. intros pt Hpt. apply H. right. exact Hpt.
Qed.

Lemma runMin_zeros (l : list PricePoint) :
  (forall pt, In pt l -> pl pt = 0) ->
  runMin 0 l = 0.
Proof.
  unfold runMin. induction l as [|cur l IH]; intros H; simpl.
  - reflexivity.
  - rewrite (H cur (or_introl eq_refl)).
    change (0 <? 0) with false. cbv iota.
    apply IH. intros pt Hpt. apply H. right. exact Hpt.
Qed.

End StrategyFacts.

(** X3: the net premium of an analysis counts the legs whose type is
    exactly 'option' and no other: it is the net premium of the strategy
    with every other leg removed, and it is 0 when there is no such leg
    (a stock-only strategy, or legs with another type string, which the
    curve nevertheless prices as options). *)
Theorem net_premium_counts_option_legs_only :
  forall (positions : list Position) (spotPrice : float) (expiry : Date),
    exists m m',
      analyzeStrategy positions spotPrice expiry = Normal m
      /\ analyzeStrategy (filter isOptionLeg positions) spotPrice expiry
         = Normal m'
      /\ netPremium m = netPremium m'
      /\ ((forall leg, In leg positions -> isOptionLeg leg = false) ->
          netPremium m = 0).
Proof.
  intros positions spotPrice expiry.
  destruct (analyzeStrategy_returns positions spotPrice expiry) as [m Hm].
  destruct (analyzeStrategy_returns (filter isOptionLeg positions)
              spotPrice expiry) as [m' Hm'].
  exists m, m'. split; [ exact Hm | ]. split; [ exact Hm' | ].
  rewrite (StrategyFacts.analyzeStrategy_netPremium _ _ _ _ Hm).
  rewrite (StrategyFacts.analyzeStrategy_netPremium _ _ _ _ Hm').
  split.
  - rewrite StrategyFacts.netPremium_filter. reflexivity.
  - intros Hnone. rewrite StrategyFacts.netPremium_filter.
    replace (filter isOptionLeg positions) with (@nil Position).
    + vm_compute. reflexivity.
    + symmetry. apply Breakeven.filter_none. exact Hnone.
Qed.

(** X4: the analysis of a strategy depends on no date: replacing the
    expiry of every leg and the expiry passed to [analyzeStrategy] by
    any other dates (invalid ones included) gives the same metrics and
    the same curve. *)
Theorem analysis_ignores_dates :
  forall (positions : list Position) (spotPrice : float)
         (expiry expiry' legExpiry : Date),
    analyzeStrategy (map (withExpiry legExpiry) positions) spotPrice expiry'
    = analyzeStrategy positions spotPrice expiry.
Proof.
  intros positions spotPrice expiry expiry' legExpiry.
  unfold analyzeStrategy.
  destruct (generatePriceRange_returns spotPrice 0.3 100) as [grid ->].
  cbn [bind].
  assert (Hcurve :
            calculateStrategyPL (map (withExpiry legExpiry) positions) grid
              expiry'
            = calculateStrategyPL positions grid expiry).
  { unfold calculateStrategyPL. f_equal. apply map_ext. intros stockPrice.
    cbv zeta. do 4 f_equal.
    rewrite (StrategyFacts.totalPL_map
               (fun position =>
                  calculatePositionPL position stockPrice expiry')).
    apply StrategyFacts.totalPL_ext. intros position _.
    rewrite StrategyFacts.calculatePositionPL_withExpiry.
    apply StrategyFacts.calculatePositionPL_date. }
  rewrite Hcurve. unfold calculateStrategyPL. cbn [bind].
  rewrite StrategyFacts.netPremium_withExpiry. reflexivity.
Qed.

(** X5: the other side of a leg (the same leg with its quantity negated)
    has exactly the opposite P&L at every price and date, for stock and
    option legs alike. *)
Theorem opposite_leg_has_opposite_pl :
  forall (position : Position) (stockPrice : float) (currentDate : Date),
    calculatePositionPL (opposite position) stockPrice currentDate
    = - calculatePositionPL position stockPrice currentDate.
Proof.
  intros position stockPrice currentDate.
  unfold calculatePositionPL, opposite.
  cbn [type optionType strike premium quantity expiry].
  destruct (String.eqb (type position) "stock").
  - apply FloatSign.mul_opp_r.
  - cbv zeta.
    repeat match goal with
           | |- context [if ?c <=? 0 then _ else _] => destruct (c <=? 0)
           end;
      rewrite FloatSign.mul_opp_r, FloatSign.mul_opp_l; reflexivity.
Qed.

(** X6: the P&L of an option leg with a finite strike is exactly
    piecewise linear in the price: at or out of the money (a call at a
    price at or below the strike, a put at a price at or above it) it is
    [(0 - premium) * quantity * 100], and in the money it is
    [((price - strike) - premium) * quantity * 100] for a call and
    [((strike - price) - premium) * quantity * 100] for a put; the
    [Math.max] neither leaves a rounding residue nor gives NaN. *)
Theorem option_leg_pl_is_piecewise_linear :
  forall (position : Position) (stockPrice : float) (currentDate : Date),
    String.eqb (type position) "stock" = false ->
    PrimFloat.is_finite (strike position) = true ->
    (outOfTheMoney stockPrice position = true ->
     calculatePositionPL position stockPrice currentDate
     = (0 - premium position) * quantity position * 100)
    /\ (inTheMoney stockPrice position = true ->
        calculatePositionPL position stockPrice currentDate
        = ((if String.eqb (optionType position) "call"
            then stockPrice - strike position
            else strike position - stockPrice)
           - premium position) * quantity position * 100).
Proof.
  intros position stockPrice currentDate Htype Hfin.
  unfold calculatePositionPL. rewrite Htype. cbv zeta.
  unfold outOfTheMoney, inTheMoney.
  split; intros H.
  - assert (Hiv :
              (if String.eqb (optionType position) "call"
               then Math_max 0 (stockPrice - strike position)
               else Math_max 0 (strike position - stockPrice)) = 0).
    { destruct (String.eqb (optionType position) "call").
      - apply FloatSub.Math_max_zero_sub_one_finite;
          [ right; exact Hfin | exact H ].
      - apply FloatSub.Math_max_zero_sub_one_finite;
          [ left; exact Hfin | exact H ]. }
    rewrite Hiv.
    destruct (Math_max 0 _ <=? 0); reflexivity.
  - assert (Hiv :
              (if String.eqb (optionType position) "call"
               then Math_max 0 (stockPrice - strike position)
               else Math_max 0 (strike position - stockPrice))
              = (if String.eqb (optionType position) "call"
                 then stockPrice - strike position
                 else strike position - stockPrice)).
    { destruct (String.eqb (optionType position) "call").
      - apply FloatSub.Math_max_zero_sub_positive;
          [ right; exact Hfin | exact H ].
      - apply FloatSub.Math_max_zero_sub_positive;
          [ left; exact Hfin | exact H ]. }
    rewrite Hiv.
    destruct (Math_max 0 _ <=? 0); reflexivity.
Qed.

Lemma option_leg_pl_is_piecewise_linear_witness :
  calculatePositionPL (strategies.optionLeg "call" 100 5 1 0) 110 0
  = ((110 - 100) - 5) * 1 * 100.
Proof.
  exact (proj2 (option_leg_pl_is_piecewise_linear
                  (strategies.optionLeg "call" 100 5 1 0) 110 0
                  eq_refl eq_refl) eq_refl).
Defined.

(** X7: at a grid price where every leg of an all-option strategy
    (finite strikes) is at or out of the money, the curve's P&L is the
    sum of [(0 - premium) * quantity * 100] over the legs, rounded to 2
    decimals: the curve is flat there, at the premiums paid or received. *)
Theorem curve_is_flat_where_all_legs_are_out_of_the_money :
  forall (positions : list Position) (priceRange : list float)
         (currentDate : Date) (curve : list PricePoint),
    calculateStrategyPL positions priceRange currentDate = Normal curve ->
    (forall leg, In leg positions ->
       String.eqb (type leg) "stock" = false
       /\ PrimFloat.is_finite (strike leg) = true) ->
    forall pt,
      In pt curve ->
      (forall leg, In leg positions -> outOfTheMoney (price pt) leg = true) ->
      pl pt
      = round2
          (fold_left
             (fun sum leg => sum + (0 - premium leg) * quantity leg * 100)
             positions 0).
Proof.
  intros positions priceRange currentDate curve Hcurve Hlegs pt Hin Hotm.
  unfold calculateStrategyPL in Hcurve. injection Hcurve as <-.
  apply in_map_iff in Hin. destruct Hin as [stockPrice [<- _]].
  cbn [pl price] in *. unfold round2. do 2 f_equal. f_equal.
  apply StrategyFacts.totalPL_ext. intros leg Hleg.
  destruct (Hlegs leg Hleg) as [Htype Hfin].
  destruct (String.eqb (type leg) "stock") eqn:E; [ discriminate | ].
  unfold calculatePositionPL. rewrite E. cbv zeta.
  pose proof (Hotm leg Hleg) as H. unfold outOfTheMoney in H.
  assert (Hiv :
            (if String.eqb (optionType leg) "call"
             then Math_max 0 (stockPrice - strike leg)
             else Math_max 0 (strike leg - stockPrice)) = 0).
  { destruct (String.eqb (optionType leg) "call").
    - apply FloatSub.Math_max_zero_sub_one_finite;
        [ right; exact Hfin | exact H ].
    - apply FloatSub.Math_max_zero_sub_one_finite;
        [ left; exact Hfin | exact H ]. }
  rewrite Hiv.
  destruct (Math_max 0 _ <=? 0); reflexivity.
Qed.

Lemma curve_is_flat_where_all_legs_are_out_of_the_money_witness :
  pl (mkPricePoint 100 200)
  = round2
      (fold_left
         (fun sum leg => sum + (0 - premium leg) * quantity leg * 100)
         (strategies.ironCondor 90 1 95 2 105 2 110 1 0) 0).
Proof.
  refine (curve_is_flat_where_all_legs_are_out_of_the_money
            (strategies.ironCondor 90 1 95 2 105 2 110 1 0)
            [100; 102.5] 0
            [ mkPricePoint 100 200; mkPricePoint 102.5 200 ]
            _ _ (mkPricePoint 100 200) (or_introl eq_refl) _).
  - vm_compute. reflexivity.
  - intros leg Hleg.
    repeat (destruct Hleg as [<- | Hleg]; [ split; reflexivity | ]).
    destruct Hleg.
  - intros leg Hleg.
    repeat (destruct Hleg as [<- | Hleg]; [ reflexivity | ]).
    destruct Hleg.
Defined.

(** X8: the analysis of the empty strategy is the zero curve at every
    spot: 101 points of P&L 0, maximum profit 0, maximum loss 0, no
    breakeven point and net premium 0 (a non-finite spot included). *)
Theorem empty_strategy_metrics :
  forall (spotPrice : float) (expiry : Date),
    exists m,
      analyzeStrategy [] spotPrice expiry = Normal m
      /\ List.length (plData m) = 101%nat
      /\ (forall pt, In pt (plData m) -> pl pt = 0)
      /\ maxProfit m = Num 0
      /\ maxLoss m = Num 0
      /\ breakevenPoints m = []
      /\ netPremium m = 0.
Proof.
  intros spotPrice expiry.
  destruct (analyzeStrategy_returns [] spotPrice expiry) as [m Hm].
  exists m. split; [ exact Hm | ].
  destruct (analyzeStrategy_curve _ _ _ _ Hm) as [grid [_ [Hc Hlen]]].
  assert (Hzero : forall pt, In pt (plData m) -> pl pt = 0).
  { unfold calculateStrategyPL in Hc. injection Hc as Hc.
    intros pt Hpt. rewrite <- Hc in Hpt. apply in_map_iff in Hpt.
    destruct Hpt as [stockPrice [<- _]]. vm_compute. reflexivity. }
  split; [ exact Hlen | ]. split; [ exact Hzero | ].
  pose proof (analyzeStrategy_breakevenPoints _ _ _ _ Hm) as Hbe.
  pose proof (StrategyFacts.analyzeStrategy_netPremium _ _ _ _ Hm) as Hnp.
  unfold analyzeStrategy in Hm.
  destruct (generatePriceRange_returns spotPrice 0.3 100) as [grid' Hgrid].
  rewrite Hgrid in Hm. cbn [bind] in Hm.
  destruct (calculateStrategyPL_returns [] grid' expiry) as [curve Hcurve].
  rewrite Hcurve in Hm. cbn [bind] in Hm.
  injection Hm as <-.
  cbn [plData maxProfit maxLoss breakevenPoints netPremium] in *.
  rewrite ScanFacts.scanLoop_maxProfit, ScanFacts.scanLoop_maxLoss.
  cbn [scanInit scan_maxProfit scan_maxLoss].
  destruct curve as [|first rest]; [ discriminate Hlen | ].
  assert (Hfirst : pl first = 0) by (apply Hzero; left; reflexivity).
  assert (Hrest : forall pt, In pt rest -> pl pt = 0)
    by (intros pt Hpt; apply Hzero; right; exact Hpt).
  assert (Hmax : runMax neg_infinity (first :: rest) = 0).
  { unfold runMax. cbn [fold_left]. rewrite Hfirst.
    change (gt 0 neg_infinity) with true. cbv iota.
    apply StrategyFacts.runMax_zeros. exact Hrest. }
  assert (Hmin : runMin infinity (first :: rest) = 0).
  { unfold runMin. cbn [fold_left]. rewrite Hfirst.
    change (0 <? infinity) with true. cbv iota.
    apply StrategyFacts.runMin_zeros. exact Hrest. }
  rewrite Hmax, Hmin.
  split; [ vm_compute; reflexivity | ].
  split; [ vm_compute; reflexivity | ].
  split.
  - rewrite Hbe. unfold crossingPrices.
    rewrite Breakeven.filter_none; [ reflexivity | ].
    intros i Hi. apply in_seq in Hi.
    rewrite (Hzero (nth i (first :: rest) noPoint))
      by (apply nth_In; lia).
    rewrite (Hzero (nth (S i) (first :: rest) noPoint))
      by (apply nth_In; lia).
    vm_compute. reflexivity.
  - vm_compute. reflexivity.
Qed.

(** ** The pricing kernel and the solver at their edges *)

Module KernelFacts.

Lemma leb_not_ltb (x y : float) : (x <=? y) = true -> (y <? x) = false.
Proof.
  intros H. destruct (y <? x) eqn:E; [ | reflexivity ].
  rewrite (Breakeven.ltb_not_leb _ _ E) in H. discriminate.
Qed.

End KernelFacts.

(** X9: gamma and vega do not depend on the option type: for the same
    S, K, T, r and sigma the kernel returns the same gamma and the same
    vega for a call, a put and any other option type string, on every
    host. *)
Theorem gamma_and_vega_ignore_option_type :
  forall (host : HostMath) (S K T r sigma : float) (kind kind' : string),
    exists g g',
      calculateGreeks (mkGreeksParams S K T r sigma kind) = Normal g
      /\ calculateGreeks (mkGreeksParams S K T r sigma kind') = Normal g'
      /\ g_gamma g = g_gamma g'
      /\ g_vega g = g_vega g'.
Proof.
  intros host S K T r sigma kind kind'.
  unfold calculateGreeks.
  cbn [spotPrice strikePrice timeToExpiry riskFreeRate volatility
       gp_optionType].
  destruct (T <=? 0).
  - eexists. eexists. repeat split.
  - destruct (calculateD1D2 S K T r sigma) as [d1 d2].
    destruct (String.eqb kind "call"), (String.eqb kind' "call");
      eexists; eexists; repeat split.
Qed.

(** X10: the option type is compared with 'call' exactly: every other
    string ('put', 'Call', 'CALL', the empty string, ...) is priced as a
    put, by the pricing kernel and by the payoff of a leg. *)
Theorem option_type_other_than_call_is_a_put :
  forall (host : HostMath) (kind : string),
    kind <> "call"%string ->
    (forall S K T r sigma,
        calculateGreeks (mkGreeksParams S K T r sigma kind)
        = calculateGreeks (mkGreeksParams S K T r sigma "put"))
    /\ (forall position stockPrice currentDate,
           calculatePositionPL (withOptionType kind position) stockPrice
             currentDate
           = calculatePositionPL (withOptionType "put" position) stockPrice
               currentDate).
Proof.
  intros host kind Hkind.
  assert (E : String.eqb kind "call" = false)
    by (apply String.eqb_neq; exact Hkind).
  split.
  - intros S K T r sigma. unfold calculateGreeks.
    cbn [spotPrice strikePrice timeToExpiry riskFreeRate volatility
         gp_optionType].
    rewrite E. reflexivity.
  - intros position stockPrice currentDate.
    unfold calculatePositionPL, withOptionType.
    cbn [type optionType strike premium quantity expiry].
    rewrite E. reflexivity.
Qed.

Lemma option_type_other_than_call_is_a_put_witness :
  calculateGreeks (mkGreeksParams 100 100 1 0.05 0.2 "Call")
  = calculateGreeks (mkGreeksParams 100 100 1 0.05 0.2 "put").
Proof.
  refine (proj1 (option_type_other_than_call_is_a_put V8Math "Call" _)
            100 100 1 0.05 0.2).
  discriminate.
Defined.

(** X11: the record of an expired option (T <= 0) with S or K finite is
    exact: a call with S <= K and a put with K <= S have the all-zero
    record (price exactly 0), a call with K < S has price S - K and
    delta 1, and a put with S < K has price K - S and delta -1. *)
Theorem expired_option_exact_record :
  forall (host : HostMath) (S K T r sigma : float),
    (T <=? 0) = true ->
    PrimFloat.is_finite S = true \/ PrimFloat.is_finite K = true ->
    ((S <=? K) = true ->
     calculateGreeks (mkGreeksParams S K T r sigma "call")
     = Normal (mkGreeks 0 0 0 0 0 0))
    /\ ((K <? S) = true ->
        calculateGreeks (mkGreeksParams S K T r sigma "call")
        = Normal (mkGreeks (S - K) 1 0 0 0 0))
    /\ ((K <=? S) = true ->
        calculateGreeks (mkGreeksParams S K T r sigma "put")
        = Normal (mkGreeks 0 0 0 0 0 0))
    /\ ((S <? K) = true ->
        calculateGreeks (mkGreeksParams S K T r sigma "put")
        = Normal (mkGreeks (K - S) (-1) 0 0 0 0)).
Proof.
  intros host S K T r sigma HT Hfin.
  unfold calculateGreeks.
  cbn [spotPrice strikePrice timeToExpiry riskFreeRate volatility
       gp_optionType].
  rewrite HT. cbn [String.eqb Ascii.eqb Bool.eqb].
  repeat split; intros H.
  - rewrite (FloatSub.Math_max_zero_sub_one_finite S K Hfin H).
    unfold gt. rewrite (KernelFacts.leb_not_ltb _ _ H). reflexivity.
  - rewrite (FloatSub.Math_max_zero_sub_positive S K Hfin H).
    unfold gt. rewrite H. reflexivity.
  - rewrite (FloatSub.Math_max_zero_sub_one_finite K S
               (proj1 (or_comm _ _) Hfin) H).
    rewrite (KernelFacts.leb_not_ltb _ _ H). reflexivity.
  - rewrite (FloatSub.Math_max_zero_sub_positive K S
               (proj1 (or_comm _ _) Hfin) H).
    rewrite H. reflexivity.
Qed.

Lemma expired_option_exact_record_witness :
  calculateGreeks (mkGreeksParams 95 100 0 0.05 0.2 "call")
  = Normal (mkGreeks 0 0 0 0 0 0).
Proof.
  exact (proj1 (expired_option_exact_record V8Math 95 100 0 0.05
                  0.2 eq_refl (or_introl eq_refl)) eq_refl).
Defined.

(** X12: the density is even: normalPDF(-x) = normalPDF(x) for every x
    (the zeros, the infinities and NaN included), on every host. *)
Theorem normalPDF_even :
  forall (host : HostMath) (x : float),
    normalPDF (- x) = normalPDF x.
Proof.
  intros host x. unfold normalPDF.
  rewrite (FloatSign.mul_opp_r (-0.5) x), FloatSign.mul_opp_opp.
  reflexivity.
Qed.

(** X13: for an expired option (T <= 0), and for maxIterations = 0, the
    solver returns its initial guess 0.2 whatever the market price, the
    spot, the strike, the rate, the option type and the tolerance, on
    every host: no pass changes sigma. *)
Theorem solver_returns_initial_guess_when_expired :
  forall (host : HostMath) (p : IVParams),
    (iv_timeToExpiry p <=? 0) = true \/ maxIterations p = 0%nat ->
    calculateImpliedVolatility p = Normal 0.2.
Proof.
  intros host p H. unfold calculateImpliedVolatility.
  destruct (maxIterations p) as [|n] eqn:En.
  - cbn [ivLoop bind]. f_equal.
  - destruct H as [HT | H0]; [ | discriminate H0 ].
    cbn [ivLoop]. unfold greeksAt, calculateGreeks.
    cbn [spotPrice strikePrice timeToExpiry riskFreeRate volatility
         gp_optionType].
    rewrite HT. cbn [bind g_price g_vega].
    destruct (Math_abs _ <? tolerance p).
    + cbn [bind]. f_equal.
    + change (strict_eq (0 * 100) 0) with true. cbn [bind]. f_equal.
Qed.

Lemma solver_returns_initial_guess_when_expired_witness :
  calculateImpliedVolatility
    (mkIVParams 7 105 100 0 0.05 "call" 100 0.0001)
  = Normal 0.2.
Proof.
  exact (solver_returns_initial_guess_when_expired V8Math
           (mkIVParams 7 105 100 0 0.05 "call" 100 0.0001)
           (or_introl eq_refl)).
Defined.

(** ** The E*TRADE client *)

Local Open Scope string_scope.

Module ClientFacts.

(** The condition [accessToken && accessTokenSecret] holds exactly when
    both are non-empty strings. *)
Lemma hasValidAccessToken_truthy (ETRADE_CONFIG : config.Config) :
  config.truthy (oauth.hasValidAccessToken ETRADE_CONFIG)
  = config.truthy (config.accessToken ETRADE_CONFIG)
    && config.truthy (config.accessTokenSecret ETRADE_CONFIG).
Proof.
  unfold oauth.hasValidAccessToken.
  destruct (config.truthy (config.accessToken ETRADE_CONFIG)) eqn:E.
  - reflexivity.
  - rewrite E. reflexivity.
Qed.

(** The module's client after [getEtradeClient]: the one that was there,
    or a new one. *)
Lemma getEtradeClient_world (ETRADE_CONFIG : config.Config)
    (w : oauth.World) :
  exists c,
    oauth.getEtradeClient ETRADE_CONFIG w
    = (Normal c, oauth.mkWorld (Some c) (oauth.sent w)).
Proof.
  unfold oauth.getEtradeClient. destruct w as [[c|] requests]; simpl.
  - exists c. reflexivity.
  - eexists. reflexivity.
Qed.

Lemma request_unauthenticated {platform : oauth.Platform}
    (ETRADE_CONFIG : config.Config) (endpoint method : string)
    (body params : oauth.JSObject) (w : oauth.World) :
  config.truthy (oauth.hasValidAccessToken ETRADE_CONFIG) = false ->
  client.request ETRADE_CONFIG endpoint method body params w
  = (Throw (Error "Not authenticated. Run: npm run auth"), w).
Proof.
  intros H. unfold client.request. rewrite H. reflexivity.
Qed.

(** An authenticated GET: one request, signed with the stored tokens,
    whose response is the result. *)
Lemma request_get {platform : oauth.Platform}
    (ETRADE_CONFIG : config.Config) (endpoint : string)
    (body params : oauth.JSObject) (w : oauth.World) :
  config.truthy (oauth.hasValidAccessToken ETRADE_CONFIG) = true ->
  exists c,
    oauth.getEtradeClient ETRADE_CONFIG w
    = (Normal c, oauth.mkWorld (Some c) (oauth.sent w))
    /\ client.request ETRADE_CONFIG endpoint "GET" body params w
       = (oauth.respond (oauth.sent w)
            (oauth.Get
               (oauth.mkAuthenticatedClient c
                  (config.accessToken ETRADE_CONFIG)
                  (config.accessTokenSecret ETRADE_CONFIG))
               endpoint params),
          oauth.mkWorld (Some c)
            (oauth.sent w
             ++ [oauth.Get
                   (oauth.mkAuthenticatedClient c
                      (config.accessToken ETRADE_CONFIG)
                      (config.accessTokenSecret ETRADE_CONFIG))
                   endpoint params])%list).
Proof.
  intros H.
  destruct (getEtradeClient_world ETRADE_CONFIG w) as [c Hc].
  exists c. split; [ exact Hc | ].
  unfold client.request. rewrite H. cbn [negb].
  change (String.eqb "GET" "GET") with true. cbv iota.
  unfold oauth.apiGet, oauth.getAuthenticatedClient. rewrite H. cbn [negb].
  unfold oauth.await at 1. unfold oauth.await. rewrite Hc.
  unfold oauth.resolve, oauth.send. reflexivity.
Qed.

End ClientFacts.

(** X14: the API host follows ETRADE_ENV exactly: the OAuth client is
    built for api.etrade.com when the variable is the string
    'production' and for the sandbox host apisb.etrade.com in every
    other case (unset, empty, 'Production', 'prod', ...); its request
    and access URLs are on that host and it carries the consumer key and
    secret of the environment. *)
Theorem api_host_follows_environment :
  forall (env : config.ProcessEnv) (requests : list oauth.Request),
    exists c,
      oauth.getEtradeClient (config.ETRADE_CONFIG env)
        (oauth.mkWorld None requests)
      = (Normal c, oauth.mkWorld (Some c) requests)
      /\ (oauth.apiHostName c = "api.etrade.com"
          <-> config.ETRADE_ENV env = Some "production")
      /\ (oauth.apiHostName c = "api.etrade.com"
          \/ oauth.apiHostName c = "apisb.etrade.com")
      /\ oauth.requestUrl c
         = "https://" ++ oauth.apiHostName c ++ "/oauth/request_token"
      /\ oauth.accessUrl c
         = "https://" ++ oauth.apiHostName c ++ "/oauth/access_token"
      /\ oauth.key c = config.ETRADE_CONSUMER_KEY env
      /\ oauth.secret c = config.ETRADE_CONSUMER_SECRET env.
Proof.
  intros env requests. unfold oauth.getEtradeClient.
  cbn [oauth.etradeClient oauth.sent]. cbv zeta.
  eexists. split; [ reflexivity | ].
  cbn [oauth.apiHostName oauth.requestUrl oauth.accessUrl oauth.key
       oauth.secret].
  unfold config.baseUrl, config.ETRADE_CONFIG.
  cbn [config.environment config.consumerKey config.consumerSecret].
  destruct (config.ETRADE_ENV env) as [s|].
  - destruct (String.eqb s EmptyString) eqn:Eempty.
    + apply String.eqb_eq in Eempty. subst s.
      repeat split; try reflexivity; try discriminate.
      right. reflexivity.
    + destruct (String.eqb s "production") eqn:Eprod.
      * apply String.eqb_eq in Eprod. subst s.
        repeat split; try reflexivity. left. reflexivity.
      * apply String.eqb_neq in Eprod.
        repeat split; try reflexivity; try discriminate.
        -- intros H. injection H as H. contradiction.
        -- right. reflexivity.
  - repeat split; try reflexivity; try discriminate.
    right. reflexivity.
Qed.

(** X15: without a valid access token (the token or its secret missing
    or empty) every method of the E*TRADE client rejects with 'Not
    authenticated. Run: npm run auth' before anything else happens: no
    request is sent and no OAuth client is created. *)
Theorem unauthenticated_client_sends_nothing :
  forall (platform : oauth.Platform) (ETRADE_CONFIG : config.Config),
    config.truthy (config.accessToken ETRADE_CONFIG)
    && config.truthy (config.accessTokenSecret ETRADE_CONFIG) = false ->
    forall (w : oauth.World),
      let rejected (call : oauth.Async oauth.ResponseBody) :=
        call w
        = (Throw (Error "Not authenticated. Run: npm run auth"), w) in
      (forall endpoint method body params,
          rejected (client.request ETRADE_CONFIG endpoint method body params))
      /\ (forall symbol options,
             rejected (client.getOptionsChain ETRADE_CONFIG symbol options))
      /\ (forall symbol,
             rejected (client.getOptionExpiries ETRADE_CONFIG symbol))
      /\ (forall symbols, rejected (client.getQuote ETRADE_CONFIG symbols))
      /\ rejected (client.getAccounts ETRADE_CONFIG)
      /\ (forall accountIdKey,
             rejected (client.getAccountBalance ETRADE_CONFIG accountIdKey))
      /\ (forall accountIdKey,
             rejected (client.getPositions ETRADE_CONFIG accountIdKey)).
Proof.
  intros platform ETRADE_CONFIG H w rejected. subst rejected. cbv beta.
  rewrite <- ClientFacts.hasValidAccessToken_truthy in H.
  repeat split; intros;
    apply ClientFacts.request_unauthenticated; exact H.
Qed.

Lemma unauthenticated_client_sends_nothing_witness :
  @client.getQuote (answering "{}") loggedOut
    (Some (client.SymbolList "AAPL")) (oauth.mkWorld None [])
  = (Throw (Error "Not authenticated. Run: npm run auth"),
     oauth.mkWorld None []).
Proof.
  exact (proj1 (proj2 (proj2 (proj2
           (unauthenticated_client_sends_nothing (answering "{}") loggedOut
              eq_refl (oauth.mkWorld None [])))))
           (Some (client.SymbolList "AAPL"))).
Defined.

(** X16: with a valid token, [request] accepts the methods 'GET' and
    'POST' only: any other method ('PUT' and 'DELETE' included, for
    which oauth.js has functions) is rejected with 'Unsupported method:
    ' followed by the method, and nothing is sent. *)
Theorem unsupported_method_is_rejected :
  forall (platform : oauth.Platform) (ETRADE_CONFIG : config.Config)
         (endpoint method : string) (body params : oauth.JSObject)
         (w : oauth.World),
    config.truthy (oauth.hasValidAccessToken ETRADE_CONFIG) = true ->
    method <> "GET" -> method <> "POST" ->
    client.request ETRADE_CONFIG endpoint method body params w
    = (Throw (Error ("Unsupported method: " ++ method)), w).
Proof.
  intros platform ETRADE_CONFIG endpoint method body params w H Hget Hpost.
  unfold client.request. rewrite H. cbn [negb].
  apply String.eqb_neq in Hget. apply String.eqb_neq in Hpost.
  rewrite Hget, Hpost. reflexivity.
Qed.

Lemma unsupported_method_is_rejected_witness :
  @client.request (answering "{}") loggedIn "/v1/accounts/list.json" "PUT"
    oauth.JSNull oauth.JSNull (oauth.mkWorld None [])
  = (Throw (Error "Unsupported method: PUT"), oauth.mkWorld None []).
Proof.
  refine (unsupported_method_is_rejected (answering "{}") loggedIn
            "/v1/accounts/list.json" "PUT" oauth.JSNull oauth.JSNull
            (oauth.mkWorld None []) eq_refl _ _); discriminate.
Defined.

Local Close Scope string_scope.

(** ** The tool handler and the server *)

Local Open Scope string_scope.

Module ToolFacts.

Import Ascii.

(** Evaluates the comparisons of two string constants. *)
Ltac decide_names :=
  repeat match goal with
         | |- context [String.eqb ?a ?b] =>
             let v := eval vm_compute in (String.eqb a b) in
             match v with
             | true => change (String.eqb a b) with true
             | false => change (String.eqb a b) with false
             end
         end;
  cbv iota.

Lemma split_without (c : Ascii.ascii) (s : string) :
  without c s = true -> tools.split c s = [s].
Proof.
  induction s as [|x rest IH]; simpl; intros H.
  - reflexivity.
  - apply andb_prop in H. destruct H as [Hx Hrest].
    destruct (Ascii.eqb x c); [ discriminate Hx | ].
    rewrite (IH Hrest). reflexivity.
Qed.

Lemma split_at (c : Ascii.ascii) (s rest : string) :
  without c s = true ->
  tools.split c (s ++ String c rest) = s :: tools.split c rest.
Proof.
  induction s as [|x s' IH]; simpl; intros H.
  - rewrite Ascii.eqb_refl. reflexivity.
  - apply andb_prop in H. destruct H as [Hx Hs'].
    destruct (Ascii.eqb x c); [ discriminate Hx | ].
    rewrite (IH Hs'). reflexivity.
Qed.

Lemma split_date (y m d : string) :
  dashFree y = true -> dashFree m = true -> dashFree d = true ->
  tools.split "-" (y ++ "-" ++ m ++ "-" ++ d) = [y; m; d].
Proof.
  unfold dashFree. change (ascii_of_nat 45) with "-"%char.
  intros Hy Hm Hd.
  change (y ++ "-" ++ m ++ "-" ++ d)
    with (y ++ String "-" (m ++ String "-" d)).
  rewrite (split_at _ y _ Hy), (split_at _ m _ Hm), (split_without _ d Hd).
  reflexivity.
Qed.

Lemma truthy_date (y rest : string) :
  config.truthy (Some (y ++ "-" ++ rest)) = true.
Proof.
  destruct y; reflexivity.
Qed.

Lemma truthy_append (s rest : string) (c : Ascii.ascii) :
  config.truthy (Some (s ++ String c rest)) = true.
Proof.
  destruct s; reflexivity.
Qed.

(** A data tool resolves to the body of its request. *)
Lemma data_of_request {host : HostMath} {platform : oauth.Platform}
    (ETRADE_CONFIG : config.Config) (endpoint : string)
    (body params : oauth.JSObject) (w : oauth.World) :
  config.truthy (oauth.hasValidAccessToken ETRADE_CONFIG) = true ->
  exists c,
    oauth.getEtradeClient ETRADE_CONFIG w
    = (Normal c, oauth.mkWorld (Some c) (oauth.sent w))
    /\ tools.data
         (client.request ETRADE_CONFIG endpoint "GET" body params) w
       = (match
            oauth.respond (oauth.sent w)
              (oauth.Get
                 (oauth.mkAuthenticatedClient c
                    (config.accessToken ETRADE_CONFIG)
                    (config.accessTokenSecret ETRADE_CONFIG))
                 endpoint params)
          with
          | Normal body => Normal (tools.Data body)
          | Throw exn => Throw exn
          end,
          oauth.mkWorld (Some c)
            (oauth.sent w
             ++ [oauth.Get
                   (oauth.mkAuthenticatedClient c
                      (config.accessToken ETRADE_CONFIG)
                      (config.accessTokenSecret ETRADE_CONFIG))
                   endpoint params])%list).
Proof.
  intros H.
  destruct (ClientFacts.request_get ETRADE_CONFIG endpoint body params w H)
    as [c [Hc Hreq]].
  exists c. split; [ exact Hc | ].
  unfold tools.data, oauth.await. rewrite Hreq.
  destruct (oauth.respond _ _); reflexivity.
Qed.

Lemma not_an_etrade_tool (name : string) :
  existsb (String.eqb name) server.etradeTools = false ->
  String.eqb name "get_options_chain" = false
  /\ String.eqb name "get_option_expiries" = false
  /\ String.eqb name "get_quote" = false
  /\ String.eqb name "get_accounts" = false
  /\ String.eqb name "get_positions" = false.
Proof.
  unfold server.etradeTools. cbn [existsb]. intros H.
  repeat (apply Bool.orb_false_elim in H; destruct H as [? H]).
  repeat split; assumption.
Qed.

(** The tools that are not E*TRADE tools read no configuration and
    leave the world as it is. *)
Lemma handleToolCall_local {host : HostMath} {platform : oauth.Platform}
    (ETRADE_CONFIG : config.Config) (name : string) (args : tools.Args)
    (w : oauth.World) :
  existsb (String.eqb name) server.etradeTools = false ->
  exists outcome,
    forall ETRADE_CONFIG',
      tools.handleToolCall ETRADE_CONFIG' name args w = (outcome, w).
Proof.
  intros H. apply not_an_etrade_tool in H.
  destruct H as [H1 [H2 [H3 [H4 H5]]]].
  unfold tools.handleToolCall. rewrite H1, H2, H3, H4, H5.
  unfold tools.analysis, oauth.sync, oauth.reject.
  repeat match goal with
         | |- context [if String.eqb name ?s then _ else _] =>
             destruct (String.eqb name s)
         end;
    eexists; intros; reflexivity.
Qed.

Lemma existsb_In (name : string) (names : list string) :
  existsb (String.eqb name) names = true <-> In name names.
Proof.
  rewrite existsb_exists. split.
  - intros [x [Hx E]]. apply String.eqb_eq in E. subst x. exact Hx.
  - intros H. exists name. split; [ exact H | apply String.eqb_refl ].
Qed.

Lemma existsb_not_In (name : string) (names : list string) :
  existsb (String.eqb name) names = false <-> ~ In name names.
Proof.
  split; intros H.
  - intros Hin. apply existsb_In in Hin. congruence.
  - destruct (existsb (String.eqb name) names) eqn:E; [ | reflexivity ].
    apply existsb_In in E. contradiction.
Qed.

Lemma calculateImpliedVolatility_returns {host : HostMath} (p : IVParams) :
  exists sigma, calculateImpliedVolatility p = Normal sigma.
Proof.
  unfold calculateImpliedVolatility.
  destruct (ivLoop_run p (maxIterations p) 0.2)
    as [k [_ [_ [_ [H|H]]]]]; rewrite H; eexists; reflexivity.
Qed.

End ToolFacts.

(** X17: with a valid token, each of the five E*TRADE tools sends
    exactly one GET request, signed with the stored token and secret
    through the module's single OAuth client (created on first use);
    the tool resolves to the body of the response, and rejects with the
    error of the request when the request fails. *)
Theorem data_tool_sends_one_signed_request :
  forall (host : HostMath) (platform : oauth.Platform)
         (ETRADE_CONFIG : config.Config) (name : string)
         (args : tools.Args) (w : oauth.World),
    In name server.etradeTools ->
    config.truthy (oauth.hasValidAccessToken ETRADE_CONFIG) = true ->
    exists c path params,
      oauth.getEtradeClient ETRADE_CONFIG w
      = (Normal c, oauth.mkWorld (Some c) (oauth.sent w))
      /\ tools.handleToolCall ETRADE_CONFIG name args w
         = (match
              oauth.respond (oauth.sent w)
                (oauth.Get
                   (oauth.mkAuthenticatedClient c
                      (config.accessToken ETRADE_CONFIG)
                      (config.accessTokenSecret ETRADE_CONFIG))
                   path params)
            with
            | Normal body => Normal (tools.Data body)
            | Throw exn => Throw exn
            end,
            oauth.mkWorld (Some c)
              (oauth.sent w
               ++ [oauth.Get
                     (oauth.mkAuthenticatedClient c
                        (config.accessToken ETRADE_CONFIG)
                        (config.accessTokenSecret ETRADE_CONFIG))
                     path params])%list).
Proof.
  intros host platform ETRADE_CONFIG name args w Hin Hauth.
  unfold server.etradeTools in Hin.
  repeat (destruct Hin as [<- | Hin]); [ .. | destruct Hin ];
    unfold tools.handleToolCall; ToolFacts.decide_names;
    unfold client.getOptionsChain, client.getOptionExpiries,
      client.getQuote, client.getAccounts, client.getPositions;
    cbv zeta;
    match goal with
    | |- context [client.request _ ?e "GET" ?b ?p] =>
        destruct (ToolFacts.data_of_request ETRADE_CONFIG e b p w Hauth)
          as [c [Hc Hdata]];
        exists c, e, p; split; [ exact Hc | exact Hdata ]
    end.
Qed.

Lemma data_tool_sends_one_signed_request_witness :
  exists c path params,
    oauth.getEtradeClient loggedIn (oauth.mkWorld None [])
    = (Normal c, oauth.mkWorld (Some c) [])
    /\ @tools.handleToolCall V8Math (answering "{}") loggedIn "get_accounts"
         noArgs (oauth.mkWorld None [])
       = (match
            @oauth.respond (answering "{}") []
              (oauth.Get
                 (oauth.mkAuthenticatedClient c
                    (config.accessToken loggedIn)
                    (config.accessTokenSecret loggedIn))
                 path params)
          with
          | Normal body => Normal (tools.Data body)
          | Throw exn => Throw exn
          end,
          oauth.mkWorld (Some c)
            [oauth.Get
               (oauth.mkAuthenticatedClient c
                  (config.accessToken loggedIn)
                  (config.accessTokenSecret loggedIn))
               path params]).
Proof.
  exact (data_tool_sends_one_signed_request V8Math (answering "{}")
           loggedIn "get_accounts" noArgs (oauth.mkWorld None [])
           (or_intror (or_intror (or_intror (or_introl eq_refl))))
           eq_refl).
Defined.

(** X18: get_options_chain reads an expiry date by splitting it at the
    dashes: for a date [y-m-d] (no dash inside y, m and d) the request
    carries, in this order, symbol, expiryYear = Number(y), expiryMonth
    = Number(m) and expiryDay = Number(d); without expiry date, or with
    the empty string, it carries the symbol only. *)
Theorem options_chain_request_parameters :
  forall (host : HostMath) (platform : oauth.Platform)
         (ETRADE_CONFIG : config.Config) (args : tools.Args)
         (w : oauth.World),
    config.truthy (oauth.hasValidAccessToken ETRADE_CONFIG) = true ->
    exists c,
      oauth.getEtradeClient ETRADE_CONFIG w
      = (Normal c, oauth.mkWorld (Some c) (oauth.sent w))
      /\ (forall y m d,
             tools.arg_expiryDate args = Some (y ++ "-" ++ m ++ "-" ++ d) ->
             dashFree y && dashFree m && dashFree d = true ->
             oauth.sent
               (snd (tools.handleToolCall ETRADE_CONFIG "get_options_chain"
                       args w))
             = (oauth.sent w
                ++ [oauth.Get
                      (oauth.mkAuthenticatedClient c
                         (config.accessToken ETRADE_CONFIG)
                         (config.accessTokenSecret ETRADE_CONFIG))
                      "/v1/market/optionchains.json"
                      (oauth.Properties
                         [ ("symbol",
                            client.stringValue (tools.arg_symbol args));
                           ("expiryYear", oauth.NumberOf y);
                           ("expiryMonth", oauth.NumberOf m);
                           ("expiryDay", oauth.NumberOf d) ])])%list)
      /\ (tools.arg_expiryDate args = None
          \/ tools.arg_expiryDate args = Some EmptyString ->
          oauth.sent
            (snd (tools.handleToolCall ETRADE_CONFIG "get_options_chain"
                    args w))
          = (oauth.sent w
             ++ [oauth.Get
                   (oauth.mkAuthenticatedClient c
                      (config.accessToken ETRADE_CONFIG)
                      (config.accessTokenSecret ETRADE_CONFIG))
                   "/v1/market/optionchains.json"
                   (oauth.Properties
                      [ ("symbol",
                         client.stringValue (tools.arg_symbol args)) ])])%list).
Proof.
  intros host platform ETRADE_CONFIG args w Hauth.
  destruct (ClientFacts.getEtradeClient_world ETRADE_CONFIG w) as [c Hc].
  exists c. split; [ exact Hc | ].
  assert (Hsent :
            forall options,
              oauth.sent
                (snd (tools.data
                        (client.getOptionsChain ETRADE_CONFIG
                           (tools.arg_symbol args) options) w))
              = (oauth.sent w
                 ++ [oauth.Get
                       (oauth.mkAuthenticatedClient c
                          (config.accessToken ETRADE_CONFIG)
                          (config.accessTokenSecret ETRADE_CONFIG))
                       "/v1/market/optionchains.json"
                       (oauth.Properties
                          (client.spread
                             [("symbol",
                               client.stringValue (tools.arg_symbol args))]
                             options))])%list).
  { intros options. unfold client.getOptionsChain. cbv zeta.
    match goal with
    | |- context [client.request _ ?e "GET" ?b ?p] =>
        destruct (ToolFacts.data_of_request ETRADE_CONFIG e b p w Hauth)
          as [c' [Hc' Hdata]]
    end.
    rewrite Hc in Hc'. injection Hc' as <-.
    rewrite Hdata. reflexivity. }
  split.
  - intros y m d Hdate Hparts.
    apply andb_prop in Hparts. destruct Hparts as [Hparts Hd].
    apply andb_prop in Hparts. destruct Hparts as [Hy Hm].
    unfold tools.handleToolCall. ToolFacts.decide_names.
    rewrite Hdate, ToolFacts.truthy_date.
    rewrite (ToolFacts.split_date y m d Hy Hm Hd).
    cbv zeta. rewrite Hsent. reflexivity.
  - intros [Hdate | Hdate];
      unfold tools.handleToolCall; ToolFacts.decide_names;
      rewrite Hdate; cbn [config.truthy String.eqb negb]; cbv zeta;
      rewrite Hsent; reflexivity.
Qed.

Lemma options_chain_request_parameters_witness :
  exists c,
    oauth.getEtradeClient loggedIn (oauth.mkWorld None [])
    = (Normal c, oauth.mkWorld (Some c) [])
    /\ oauth.sent
         (snd (@tools.handleToolCall V8Math (answering "{}") loggedIn
                 "get_options_chain"
                 (tools.mkArgs (Some "AAPL") (Some "2025-03-21") None None
                    nan nan nan nan None None nan nan nan nan nan None nan
                    nan nan nan nan nan nan nan nan nan nan nan nan nan
                    None None)
                 (oauth.mkWorld None [])))
       = [oauth.Get
            (oauth.mkAuthenticatedClient c (Some "token")
               (Some "tokenSecret"))
            "/v1/market/optionchains.json"
            (oauth.Properties
               [ ("symbol", oauth.JSString "AAPL");
                 ("expiryYear", oauth.NumberOf "2025");
                 ("expiryMonth", oauth.NumberOf "03");
                 ("expiryDay", oauth.NumberOf "21") ])].
Proof.
  destruct (options_chain_request_parameters V8Math (answering "{}")
              loggedIn
              (tools.mkArgs (Some "AAPL") (Some "2025-03-21") None None
                 nan nan nan nan None None nan nan nan nan nan None nan
                 nan nan nan nan nan nan nan nan nan nan nan nan nan
                 None None)
              (oauth.mkWorld None []) eq_refl) as [c [Hc [Hdate _]]].
  exists c. split; [ exact Hc | ].
  exact (Hdate "2025" "03" "21" eq_refl eq_refl).
Defined.

Local Close Scope string_scope.

Local Open Scope string_scope.

(** X19: the switch of the tool handler and the list of tools agree: a
    name that is not the name of a listed tool is rejected with 'Unknown
    tool: ' followed by the name, which the server reports as an error
    response, without touching anything; and no listed tool ends in that
    rejection (shown without a token, where no answer of the server is
    involved). *)
Theorem unknown_tool_is_rejected :
  forall (host : HostMath) (platform : oauth.Platform)
         (ETRADE_CONFIG : config.Config) (name : string)
         (args : tools.Args) (w : oauth.World),
    (~ In name tools.toolNames ->
     tools.handleToolCall ETRADE_CONFIG name args w
     = (Throw (Error ("Unknown tool: " ++ name)), w)
     /\ server.callTool ETRADE_CONFIG name args w
        = (server.mkCallToolResponse
             (server.Failure ("Unknown tool: " ++ name) name args) true,
           w))
    /\ (In name tools.toolNames ->
        config.truthy (oauth.hasValidAccessToken ETRADE_CONFIG) = false ->
        fst (tools.handleToolCall ETRADE_CONFIG name args w)
        <> Throw (Error ("Unknown tool: " ++ name))).
Proof.
  intros host platform ETRADE_CONFIG name args w. split.
  - intros Hnot.
    assert (Hhandle :
              tools.handleToolCall ETRADE_CONFIG name args w
              = (Throw (Error ("Unknown tool: " ++ name)), w)).
    { unfold tools.handleToolCall.
      repeat match goal with
             | |- context [if String.eqb name ?s then _ else _] =>
                 let E := fresh "E" in
                 destruct (String.eqb name s) eqn:E;
                   [ apply String.eqb_eq in E; exfalso; apply Hnot;
                     rewrite E; unfold tools.toolNames; simpl; tauto | ]
             end.
      reflexivity. }
    split; [ exact Hhandle | ].
    unfold server.callTool.
    assert (Hdata : existsb (String.eqb name) server.etradeTools = false).
    { apply ToolFacts.existsb_not_In. intros Hin. apply Hnot.
      unfold server.etradeTools in Hin. unfold tools.toolNames.
      simpl in Hin |- *. tauto. }
    rewrite Hdata, Hhandle. reflexivity.
  - intros Hin Hauth. unfold tools.toolNames in Hin.
    repeat (destruct Hin as [<- | Hin]); [ .. | destruct Hin ];
      unfold tools.handleToolCall; ToolFacts.decide_names;
      unfold client.getOptionsChain, client.getOptionExpiries,
        client.getQuote, client.getAccounts, client.getPositions;
      cbv zeta;
      try (unfold tools.data, oauth.await;
           rewrite ClientFacts.request_unauthenticated by exact Hauth;
           cbn [fst]; intros E; discriminate E);
      unfold tools.analysis, oauth.sync; cbn [fst].
    + match goal with
      | |- context [calculateGreeks ?p] =>
          destruct (calculateGreeks_returns p) as [g Hg]; rewrite Hg
      end.
      discriminate.
    + match goal with
      | |- context [calculateImpliedVolatility ?p] =>
          destruct (ToolFacts.calculateImpliedVolatility_returns p)
            as [s Hs]; rewrite Hs
      end.
      discriminate.
    + match goal with
      | |- context [analyzeStrategy ?l ?s ?e] =>
          destruct (analyzeStrategy_returns l s e) as [m Hm]; rewrite Hm
      end.
      discriminate.
    + match goal with
      | |- context [analyzeStrategy ?l ?s ?e] =>
          destruct (analyzeStrategy_returns l s e) as [m Hm]; rewrite Hm
      end.
      discriminate.
    + match goal with
      | |- context [analyzeStrategy ?l ?s ?e] =>
          destruct (analyzeStrategy_returns l s e) as [m Hm]; rewrite Hm
      end.
      discriminate.
    + match goal with
      | |- context [analyzeStrategy ?l ?s ?e] =>
          destruct (analyzeStrategy_returns l s e) as [m Hm]; rewrite Hm
      end.
      discriminate.
    + match goal with
      | |- context [generatePriceRange ?c ?f ?n] =>
          destruct (generatePriceRange_returns c f n) as [grid Hgrid];
            rewrite Hgrid
      end.
      cbn [bind]. destruct (tools.arg_positions args) as [positions|].
      * match goal with
        | |- context [calculateStrategyPL ?l ?g ?d] =>
            destruct (calculateStrategyPL_returns l g d) as [curve Hcurve];
              rewrite Hcurve
        end.
        discriminate.
      * discriminate.
Qed.

(** X20: a risk-free rate of 0 cannot be requested from the tools: with
    the rate left out, 0 or -0, calculate_greeks and
    calculate_implied_volatility resolve to what they resolve to with
    the rate 0.05. *)
Theorem zero_rate_is_priced_at_five_percent :
  forall (host : HostMath) (platform : oauth.Platform)
         (ETRADE_CONFIG : config.Config) (args : tools.Args)
         (w : oauth.World) (rate : option float),
    In rate [None; Some 0%float; Some (-0)%float] ->
    tools.handleToolCall ETRADE_CONFIG "calculate_greeks"
      (withRiskFreeRate rate args) w
    = tools.handleToolCall ETRADE_CONFIG "calculate_greeks"
        (withRiskFreeRate (Some 0.05%float) args) w
    /\ tools.handleToolCall ETRADE_CONFIG "calculate_implied_volatility"
         (withRiskFreeRate rate args) w
       = tools.handleToolCall ETRADE_CONFIG "calculate_implied_volatility"
           (withRiskFreeRate (Some 0.05%float) args) w.
Proof.
  intros host platform ETRADE_CONFIG args w rate Hrate.
  assert (E : tools.orNumber rate 0.05 = tools.orNumber (Some 0.05%float) 0.05).
  { repeat (destruct Hrate as [<- | Hrate]); [ .. | destruct Hrate ];
      vm_compute; reflexivity. }
  unfold tools.handleToolCall. ToolFacts.decide_names.
  unfold withRiskFreeRate.
  cbn [tools.arg_spotPrice tools.arg_strikePrice tools.arg_timeToExpiry
       tools.arg_riskFreeRate tools.arg_volatility tools.arg_optionType
       tools.arg_optionPrice].
  rewrite E. split; reflexivity.
Qed.

Lemma zero_rate_is_priced_at_five_percent_witness :
  @tools.handleToolCall V8Math (answering "{}") loggedOut "calculate_greeks"
    (withRiskFreeRate (Some 0%float) noArgs) (oauth.mkWorld None [])
  = @tools.handleToolCall V8Math (answering "{}") loggedOut
      "calculate_greeks" (withRiskFreeRate (Some 0.05%float) noArgs)
      (oauth.mkWorld None []).
Proof.
  exact (proj1 (zero_rate_is_priced_at_five_percent V8Math (answering "{}")
                  loggedOut noArgs (oauth.mkWorld None []) (Some 0%float)
                  (or_intror (or_introl eq_refl)))).
Defined.

(** X21: calculate_pl_chart resolves to a price range of 51 points and a
    curve with one point per price of the range, in order, carrying that
    price; the curve does not depend on any expiry; the range is that of
    20 percent when priceRangePercent is left out or is 0; and with the
    positions left out the call is rejected with a TypeError. *)
Theorem pl_chart_shape :
  forall (host : HostMath) (platform : oauth.Platform)
         (ETRADE_CONFIG : config.Config) (args : tools.Args)
         (w : oauth.World),
    (tools.arg_positions args = None ->
     tools.handleToolCall ETRADE_CONFIG "calculate_pl_chart" args w
     = (Throw (TypeError "Cannot read properties of undefined (reading '0')"),
        w))
    /\ (forall positions,
           tools.arg_positions args = Some positions ->
           exists priceRange curve,
             tools.handleToolCall ETRADE_CONFIG "calculate_pl_chart" args w
             = (Normal (tools.Chart priceRange curve), w)
             /\ List.length priceRange = 51%nat
             /\ map price curve = priceRange
             /\ (forall date,
                    calculateStrategyPL positions priceRange date
                    = Normal curve)
             /\ (tools.arg_priceRangePercent args = None
                 \/ tools.arg_priceRangePercent args = Some 0%float ->
                 generatePriceRange (tools.arg_spotPrice args) 0.2 50
                 = Normal priceRange)).
Proof.
  intros host platform ETRADE_CONFIG args w.
  unfold tools.handleToolCall. ToolFacts.decide_names.
  unfold oauth.sync.
  destruct (generatePriceRange_returns (tools.arg_spotPrice args)
              (tools.orNumber (tools.arg_priceRangePercent args) 0.2) 50)
    as [grid Hgrid].
  rewrite Hgrid. cbn [bind]. split.
  - intros ->. reflexivity.
  - intros positions ->. cbv zeta.
    match goal with
    | |- context [calculateStrategyPL ?l ?g ?d] =>
        destruct (calculateStrategyPL_returns l g d) as [curve Hcurve]
    end.
    rewrite Hcurve. cbn [bind].
    exists grid, curve. split; [ reflexivity | ].
    split; [ exact (generatePriceRange_length _ _ _ _ Hgrid) | ].
    split.
    + unfold calculateStrategyPL in Hcurve. injection Hcurve as <-.
      rewrite map_map. cbn [price]. apply map_id.
    + split.
      * intros date. rewrite <- Hcurve. unfold calculateStrategyPL.
        f_equal. apply map_ext. intros stockPrice. cbv zeta.
        do 4 f_equal. apply StrategyFacts.totalPL_ext.
        intros position _. apply StrategyFacts.calculatePositionPL_date.
      * intros [Hpct | Hpct]; rewrite Hpct in Hgrid; exact Hgrid.
Qed.

(** X22: the tools that are not E*TRADE tools need no credentials: the
    server's response to them is the same whatever the configuration
    (tokens present or not), and they send no request and create no
    OAuth client. *)
Theorem analysis_tools_need_no_credentials :
  forall (host : HostMath) (platform : oauth.Platform)
         (ETRADE_CONFIG ETRADE_CONFIG' : config.Config) (name : string)
         (args : tools.Args) (w : oauth.World),
    ~ In name server.etradeTools ->
    server.callTool ETRADE_CONFIG name args w
    = server.callTool ETRADE_CONFIG' name args w
    /\ snd (server.callTool ETRADE_CONFIG name args w) = w.
Proof.
  intros host platform ETRADE_CONFIG ETRADE_CONFIG' name args w Hnot.
  apply ToolFacts.existsb_not_In in Hnot.
  destruct (ToolFacts.handleToolCall_local ETRADE_CONFIG name args w Hnot)
    as [outcome Hlocal].
  unfold server.callTool. rewrite Hnot. cbn [andb].
  rewrite (Hlocal ETRADE_CONFIG), (Hlocal ETRADE_CONFIG').
  split; [ reflexivity | ].
  destruct outcome; reflexivity.
Qed.

Lemma analysis_tools_need_no_credentials_witness :
  @server.callTool V8Math (answering "{}") loggedOut "calculate_greeks"
    noArgs (oauth.mkWorld None [])
  = @server.callTool V8Math (answering "{}") loggedIn "calculate_greeks"
      noArgs (oauth.mkWorld None []).
Proof.
  refine (proj1 (analysis_tools_need_no_credentials V8Math (answering "{}")
                   loggedOut loggedIn "calculate_greeks" noArgs
                   (oauth.mkWorld None []) _)).
  unfold server.etradeTools. simpl.
  intros [H | [H | [H | [H | [H | H]]]]];
    first [ discriminate H | exact H ].
Defined.

(** X23: without a valid access token the server never reaches E*TRADE:
    whatever the tool name and the arguments, handling the call sends no
    request and creates no OAuth client; for the five E*TRADE tools the
    response is the 'Not authenticated with E*TRADE' text, which is not
    flagged as an error. *)
Theorem server_without_token_sends_nothing :
  forall (host : HostMath) (platform : oauth.Platform)
         (ETRADE_CONFIG : config.Config) (name : string)
         (args : tools.Args) (w : oauth.World),
    config.truthy (oauth.hasValidAccessToken ETRADE_CONFIG) = false ->
    snd (server.callTool ETRADE_CONFIG name args w) = w
    /\ (In name server.etradeTools ->
        exists text,
          server.callTool ETRADE_CONFIG name args w
          = (server.mkCallToolResponse
               (server.NotAuthenticated "Not authenticated with E*TRADE"
                  text)
               false,
             w)).
Proof.
  intros host platform ETRADE_CONFIG name args w Hauth.
  unfold server.callTool. rewrite Hauth. cbn [negb].
  destruct (existsb (String.eqb name) server.etradeTools) eqn:E;
    cbn [andb].
  - split; [ reflexivity | ]. intros _. eexists. reflexivity.
  - destruct (ToolFacts.handleToolCall_local ETRADE_CONFIG name args w E)
      as [outcome Hlocal].
    rewrite (Hlocal ETRADE_CONFIG). split.
    + destruct outcome; reflexivity.
    + intros Hin. apply ToolFacts.existsb_In in Hin. congruence.
Qed.

Lemma server_without_token_sends_nothing_witness :
  snd (@server.callTool V8Math (answering "{}") loggedOut "get_quote"
         noArgs (oauth.mkWorld None []))
  = oauth.mkWorld None [].
Proof.
  exact (proj1 (server_without_token_sends_nothing V8Math (answering "{}")
                  loggedOut "get_quote" noArgs (oauth.mkWorld None [])
                  eq_refl)).
Defined.

Local Close Scope string_scope.
